(** * Verification of the offload-restore Pod action plugin

    A shallow embedding of [internal/plugin/util/util.go] and
    [internal/plugin/restore/restorePodActionPlugin.go] and the properties
    of the item mutation engine proved (or refuted) about it.

    Conventions of the embedding:
    - a Go function returning [(v, err)] is a function into
      [A * option error]: Go hands back both components, and callers in the
      plugin do read the value next to a non-nil error;
    - a Go pointer that may be nil is an [option]; a nil map is [None];
    - Go maps are stdpp [gmap]s, slices are lists;
    - a run-time panic (nil dereference) is the [Panicked] outcome. *)

From Stdlib Require Import ZArith String Ascii List Lia.
From stdpp Require Import base option gmap strings list.

Open Scope Z_scope.

(** ** Go errors *)

(** Arguments handed to a [fmt]-style format string. *)
Inductive fmt_arg : Type :=
| ArgString (s : string)
| ArgStrings (l : list string).

(** Error values, kept structured: a format string with its arguments
    rather than the rendered message. *)
Inductive error : Type :=
| NumError (func num : string) (range : bool)
    (* strconv.NumError; [range] tells ErrRange from ErrSyntax *)
| ErrFormatWrong
| ErrNumeric
| ErrSuffix
| Errorf (format : string) (args : list fmt_arg)
| Wrapf (cause : error) (format : string) (args : list fmt_arg)
| Wrap (cause : error) (message : string)
| WithStack (cause : error)
| External (message : string).
    (* an error raised by a collaborator: cluster client, codec *)

(** Outcome of a call that may panic. *)
Inductive outcome (A : Type) : Type :=
| Returned (a : A)
| Panicked (reason : string).
Arguments Returned {A} a.
Arguments Panicked {A} reason.

Definition nilDereference : string :=
  "invalid memory address or nil pointer dereference".

(** ** Package strconv (Go standard library) *)

Module strconv.

Definition isDigit (c : ascii) : bool :=
  let n := Z.of_nat (nat_of_ascii c) in (48 <=? n) && (n <=? 57).

Definition digitVal (c : ascii) : Z := Z.of_nat (nat_of_ascii c) - 48.

(** Value of a run of decimal digits; [None] on any other character. *)
Fixpoint digitsValue (acc : Z) (l : list ascii) : option Z :=
  match l with
  | [] => Some acc
  | c :: l' =>
      if isDigit c then digitsValue (10 * acc + digitVal c) l' else None
  end.

Definition maxUint64 : Z := 2 ^ 64 - 1.

(** [ParseUint(s, 10, 64)]: the syntax flag, and the value clamped to
    [maxUint64] on overflow (ErrRange). *)
Definition ParseUint (l : list ascii) : option (Z * bool) :=
  match l with
  | [] => None
  | _ =>
      match digitsValue 0 l with
      | None => None
      | Some n => if maxUint64 <? n then Some (maxUint64, true)
                  else Some (n, false)
      end
  end.

(** [ParseInt(s, 10, 64)]. *)
Definition ParseInt (s : string) : Z * option error :=
  match list_ascii_of_string s with
  | [] => (0, Some (NumError "ParseInt" s false))
  | c :: rest =>
      let '(neg, body) :=
        if Ascii.eqb c "+" then (false, rest)
        else if Ascii.eqb c "-" then (true, rest)
        else (false, c :: rest) in
      match ParseUint body with
      | None => (0, Some (NumError "ParseInt" s false))
      | Some (un, _) =>
          let cutoff := 2 ^ 63 in
          if negb neg && (cutoff <=? un) then
            (cutoff - 1, Some (NumError "ParseInt" s true))
          else if neg && (cutoff <? un) then
            (- cutoff, Some (NumError "ParseInt" s true))
          else ((if neg then - un else un), None)
      end
  end.

(** [ParseBool]. *)
Definition ParseBool (str : string) : bool * option error :=
  if existsb (String.eqb str) ["1"; "t"; "T"; "true"; "TRUE"; "True"]%string
  then (true, None)
  else if existsb (String.eqb str)
            ["0"; "f"; "F"; "false"; "FALSE"; "False"]%string
  then (false, None)
  else (false, Some (NumError "ParseBool" str false)).

End strconv.

(** ** Package resource (k8s.io/apimachinery v0.20.4, pkg/api/resource)

    [ParseResourceRequirements] depends on three things of this package:
    [ParseQuantity], the comparison [Cmp], and Go's [==] on the [Quantity]
    struct.  The struct is modelled field by field, because [==] compares
    the representation and not the denoted number. *)

Module resource.

(** [type Format string]; the zero value is the empty string. *)
Definition Format : Type := string.
Definition DecimalExponent : Format := "DecimalExponent".
Definition BinarySI : Format := "BinarySI".
Definition DecimalSI : Format := "DecimalSI".

(** [int64Amount]: the number [value * 10^scale]. *)
Record int64Amount : Type := { value : Z; scale : Z }.

(** [inf.Dec]: the number [unscaled * 10^(-dscale)]. *)
Record Dec : Type := { unscaled : Z; dscale : Z }.

(** [Quantity]. [d] is a pointer to an [inf.Dec], nil in the int64 form. *)
Record Quantity : Type :=
  { i : int64Amount; d : option Dec; s : string; format : Format }.

Definition zeroAmount : int64Amount := {| value := 0; scale := 0 |}.

(** [Quantity{}] *)
Definition zeroQuantity : Quantity :=
  {| i := zeroAmount; d := None; s := ""; format := "" |}.

Definition wrap32 (z : Z) : Z := (z + 2 ^ 31) mod 2 ^ 32 - 2 ^ 31.
Definition wrap64 (z : Z) : Z := (z + 2 ^ 63) mod 2 ^ 64 - 2 ^ 63.

Definition len (l : list ascii) : Z := Z.of_nat (length l).

(** *** parseQuantityString *)

Fixpoint spanDigits (l : list ascii) : list ascii * list ascii :=
  match l with
  | c :: l' =>
      if strconv.isDigit c
      then let '(ds, rest) := spanDigits l' in (c :: ds, rest)
      else ([], l)
  | [] => ([], [])
  end.

Fixpoint dropZeros (l : list ascii) : list ascii :=
  match l with
  | c :: l' => if Ascii.eqb c "0" then dropZeros l' else l
  | [] => []
  end.

Definition isSuffixChar (c : ascii) : bool :=
  existsb (Ascii.eqb c) (list_ascii_of_string "eEinumkKMGTP").

Fixpoint dropSuffixChars (l : list ascii) : list ascii :=
  match l with
  | c :: l' => if isSuffixChar c then dropSuffixChars l' else l
  | [] => []
  end.

Record parsed : Type :=
  { positive : bool; pvalue : string; num : list ascii;
    denom : list ascii; suffix : string; perr : option error }.

Definition str_of (l : list ascii) : string := string_of_list_ascii l.

Definition parseQuantityString (str : string) : parsed :=
  let l := list_ascii_of_string str in
  (* leading sign *)
  let '(pos, l1) :=
    match l with
    | c :: r => if Ascii.eqb c "-" then (false, r)
                else if Ascii.eqb c "+" then (true, r) else (true, l)
    | [] => (true, l)
    end in
  (* strip leading zeros *)
  match dropZeros l1 with
  | [] => {| positive := pos; pvalue := "0"; num := ["0"%char];
             denom := []; suffix := ""; perr := None |}
  | l2 =>
      (* the numerator *)
      let '(n, l3) := spanDigits l2 in
      match l3 with
      | [] => {| positive := pos; pvalue := str; num := n;
                 denom := []; suffix := ""; perr := None |}
      | c3 :: r3 =>
          let n := match n with [] => ["0"%char] | _ => n end in
          (* the denominator *)
          let '(dn, l4, atEnd) :=
            if Ascii.eqb c3 "."
            then let '(ds, r) := spanDigits r3 in
                 (ds, r, match r with [] => true | _ => false end)
            else ([], l3, false) in
          if atEnd
          then {| positive := pos; pvalue := str; num := n;
                  denom := dn; suffix := ""; perr := None |}
          else
            let v := str_of (take (length l - length l4) l) in
            (* the suffix *)
            match dropSuffixChars l4 with
            | [] => {| positive := pos; pvalue := v; num := n;
                       denom := dn; suffix := str_of l4; perr := None |}
            | c5 :: r5 =>
                let l6 := if Ascii.eqb c5 "-" || Ascii.eqb c5 "+"
                          then r5 else c5 :: r5 in
                match snd (spanDigits l6) with
                | [] => {| positive := pos; pvalue := v; num := n;
                           denom := dn; suffix := str_of l4;
                           perr := None |}
                | _ => {| positive := pos; pvalue := v; num := n;
                          denom := dn; suffix := "";
                          perr := Some ErrFormatWrong |}
                end
            end
      end
  end.

(** *** The suffix table ([quantitySuffixer.interpret]) *)

Definition decSuffixes : list (string * Z) :=
  [("n", -9); ("u", -6); ("m", -3); ("", 0); ("k", 3); ("M", 6);
   ("G", 9); ("T", 12); ("P", 15); ("E", 18)]%string.

Definition binSuffixes : list (string * Z) :=
  [("Ki", 10); ("Mi", 20); ("Gi", 30); ("Ti", 40); ("Pi", 50);
   ("Ei", 60)]%string.

Fixpoint lookupSuffix (t : list (string * Z)) (k : string) : option Z :=
  match t with
  | [] => None
  | (k', e) :: t' => if String.eqb k k' then Some e else lookupSuffix t' k
  end.

(** Result: base, exponent and format; [None] when [ok] is false. *)
Definition interpret (suf : string) : option (Z * Z * Format) :=
  match lookupSuffix decSuffixes suf with
  | Some e => Some (10, e, DecimalSI)
  | None =>
      match lookupSuffix binSuffixes suf with
      | Some e => Some (2, e, BinarySI)
      | None =>
          match list_ascii_of_string suf with
          | c :: ((_ :: _) as rest) =>
              if Ascii.eqb c "E" || Ascii.eqb c "e" then
                match strconv.ParseInt (str_of rest) with
                | (p, None) => Some (10, wrap32 p, DecimalExponent)
                | (_, Some _) => None
                end
              else None
          | _ => None
          end
      end
  end.

(** *** int64 helpers *)

Definition mostNegative : Z := - 2 ^ 63.

Definition int64Multiply (a b : Z) : Z * bool :=
  if (a =? 0) || (b =? 0) || (a =? 1) || (b =? 1)
  then (wrap64 (a * b), true)
  else if (a =? mostNegative) || (b =? mostNegative) then (0, false)
  else let c := wrap64 (a * b) in (c, Z.quot c b =? a).

Definition hasSuffix000 (l : list ascii) : bool :=
  match rev l with
  | a :: b :: c :: _ =>
      Ascii.eqb a "0" && Ascii.eqb b "0" && Ascii.eqb c "0"
  | _ => false
  end.

Definition firstIsZero (l : list ascii) : bool :=
  match l with c :: _ => Ascii.eqb c "0" | [] => false end.

Definition maxInt64Factors : Z := 18.
Definition Nano : Z := -9.

(** *** Arbitrary-precision decimals (gopkg.in/inf.v0) *)

(** Sign of [x - y]. *)
Definition Dec_Cmp (x y : Dec) : Z :=
  let m := Z.max (dscale x) (dscale y) in
  match (unscaled x * 10 ^ (m - dscale x))
          ?= (unscaled y * 10 ^ (m - dscale y)) with
  | Lt => -1
  | Eq => 0
  | Gt => 1
  end.

Definition Dec_Neg (x : Dec) : Dec :=
  {| unscaled := - unscaled x; dscale := dscale x |}.

(** [z.Round(x, 9, inf.RoundUp)]: scale 9, rounding away from zero. *)
Definition Dec_RoundUp9 (x : Dec) : Dec :=
  let k := dscale x - 9 in
  if k <=? 0
  then {| unscaled := unscaled x * 10 ^ (- k); dscale := 9 |}
  else
    let p := 10 ^ k in
    {| unscaled := Z.sgn (unscaled x) * ((Z.abs (unscaled x) + p - 1) / p);
       dscale := 9 |}.

(** [new(inf.Dec).SetString]: an optional sign, digits with at most one
    decimal point, at least one digit. *)
Definition Dec_SetString (v : string) : option Dec :=
  let l := list_ascii_of_string v in
  let '(neg, body) :=
    match l with
    | c :: r => if Ascii.eqb c "-" then (true, r)
                else if Ascii.eqb c "+" then (false, r) else (false, l)
    | [] => (false, l)
    end in
  let '(ip, r1) := spanDigits body in
  let '(fp, r2) :=
    match r1 with
    | c :: r => if Ascii.eqb c "." then spanDigits r else ([], r1)
    | [] => ([], [])
    end in
  match r2, ip ++ fp with
  | [], (_ :: _) as ds =>
      match strconv.digitsValue 0 ds with
      | Some n => Some {| unscaled := if neg then - n else n;
                          dscale := len fp |}
      | None => None
      end
  | _, _ => None
  end.

Definition maxAllowed : Dec := {| unscaled := 2 ^ 63 - 1; dscale := 0 |}.
Definition decOne : Dec := {| unscaled := 1; dscale := 0 |}.
Definition decZero : Dec := {| unscaled := 0; dscale := 0 |}.

(** The tail of [ParseQuantity] taken when the int64 form does not
    apply: the amount is held in an [inf.Dec]. *)
Definition parseInfDec (v : string) (base exponent : Z) (fmt : Format)
  : Quantity * option error :=
  match Dec_SetString v with
  | None => (zeroQuantity, Some ErrNumeric)
  | Some amount =>
      let amount :=
        if base =? 10 then
          {| unscaled := unscaled amount;
             dscale := wrap32 (dscale amount + wrap32 (- exponent)) |}
        else if base =? 2 then
          {| unscaled := unscaled amount * 2 ^ exponent;
             dscale := dscale amount |}
        else amount in
      let sign := Z.sgn (unscaled amount) in
      let amount := if sign =? -1 then Dec_Neg amount else amount in
      let amount :=
        if unscaled amount =? 0 then amount else Dec_RoundUp9 amount in
      let amount :=
        if String.eqb fmt BinarySI && (0 <? Dec_Cmp amount maxAllowed)
        then maxAllowed else amount in
      let fmt :=
        if String.eqb fmt BinarySI && (Dec_Cmp amount decOne <? 0)
           && (0 <? Dec_Cmp amount decZero)
        then DecimalSI else fmt in
      let amount := if sign =? -1 then Dec_Neg amount else amount in
      ({| i := zeroAmount; d := Some amount; s := ""; format := fmt |},
       None)
  end.

(** *** ParseQuantity *)

Definition ParseQuantity (str : string) : Quantity * option error :=
  if String.eqb str "" then (zeroQuantity, Some ErrFormatWrong)
  else if String.eqb str "0" then
    ({| i := zeroAmount; d := None; s := ""; format := DecimalSI |}, None)
  else
    let p := parseQuantityString str in
    match perr p with
    | Some e => (zeroQuantity, Some e)
    | None =>
        match interpret (suffix p) with
        | None => (zeroQuantity, Some ErrSuffix)
        | Some (base, exponent, fmt) =>
            let isBin := String.eqb fmt BinarySI in
            let binFast := (0 <=? exponent) && (len (denom p) =? 0) in
            let scale0 := if isBin then 0 else exponent in
            let mantissa :=
              if isBin && binFast then wrap64 (2 ^ exponent) else 1 in
            let precision :=
              if isBin then
                if binFast
                then wrap32 (15 - wrap32 (len (num p)) - exponent * 3 / 10 - 1)
                else -1
              else wrap32 (maxInt64Factors
                           - wrap32 (len (num p) + len (denom p))) in
            let slow := parseInfDec (pvalue p) base exponent fmt in
            if 0 <=? precision then
              let scale1 := wrap32 (scale0 - wrap32 (len (denom p))) in
              if Nano <=? scale1 then
                let shifted := num p ++ denom p in
                match strconv.ParseInt (str_of shifted) with
                | (_, Some _) => (zeroQuantity, Some ErrNumeric)
                | (v, None) =>
                    match int64Multiply v mantissa with
                    | (result, true) =>
                        let result :=
                          if positive p then result else wrap64 (- result) in
                        let canonical :=
                          if isBin
                          then (Z.rem exponent 10 =? 0)
                               && negb (Z.land v 7 =? 0)
                          else (Z.rem scale1 3 =? 0)
                               && negb (hasSuffix000 shifted)
                               && negb (firstIsZero shifted) in
                        ({| i := {| value := result; scale := scale1 |};
                            d := None;
                            s := if canonical then str else "";
                            format := fmt |}, None)
                    | (_, false) => slow
                    end
                end
              else slow
            else slow
        end
    end.

(** [MustParse]: panics on a parse error. *)
Definition MustParse (str : string) : outcome Quantity :=
  match ParseQuantity str with
  | (q, None) => Returned q
  | (_, Some _) => Panicked "cannot parse quantity"
  end.

(** *** Comparison *)

Definition int64Amount_AsDec (a : int64Amount) : Dec :=
  {| unscaled := value a; dscale := - scale a |}.

(** [int64Amount.Cmp]: sign of [a - b] as numbers. *)
Definition int64Amount_Cmp (a b : int64Amount) : Z :=
  Dec_Cmp (int64Amount_AsDec a) (int64Amount_AsDec b).

(** [(q *Quantity) AsDec]: converts the receiver IN PLACE to the
    [inf.Dec] form ([q.d.Dec = q.i.AsDec(); q.i = int64Amount{}]); the
    first component is the receiver afterwards. *)
Definition AsDec (q : Quantity) : Quantity * Dec :=
  match d q with
  | Some x => (q, x)
  | None =>
      let x := int64Amount_AsDec (i q) in
      ({| i := zeroAmount; d := Some x; s := s q; format := format q |}, x)
  end.

(** [(q *Quantity) Cmp(y Quantity)]: the receiver afterwards, and
    -1, 0 or 1.  [y] is passed by value, so the caller's [y] is never
    changed. *)
Definition Cmp (q y : Quantity) : Quantity * Z :=
  match d q, d y with
  | None, None => (q, int64Amount_Cmp (i q) (i y))
  | _, _ =>
      let '(q', qd) := AsDec q in
      let '(_, yd) := AsDec y in
      (q', Dec_Cmp qd yd)
  end.

(** Go's [==] on two [Quantity] structs, one of which has a nil [d]
    or both of which come from different parses: the fields are
    compared one by one, and [d] by pointer identity, so two non-nil
    [d] (two allocations) are never equal. *)
Definition Quantity_eqb (a b : Quantity) : bool :=
  (value (i a) =? value (i b)) && (scale (i a) =? scale (i b))
  && match d a, d b with None, None => true | _, _ => false end
  && String.eqb (s a) (s b) && String.eqb (format a) (format b).

End resource.

(** ** Kubernetes API types (k8s.io/api/core/v1)

    Only the fields the plugin reads or writes.  Field names that several
    structs share carry the struct name as a prefix. *)

Module corev1api.

Definition ResourceCPU : string := "cpu".
Definition ResourceMemory : string := "memory".

Record ResourceRequirements : Type :=
  { Limits : gmap string resource.Quantity;
    Requests : gmap string resource.Quantity }.

Record SecurityContext : Type :=
  { RunAsUser : option Z;
    RunAsGroup : option Z;
    AllowPrivilegeEscalation : option bool }.

Record PersistentVolumeClaimVolumeSource : Type :=
  { ClaimName : string; PVC_ReadOnly : bool }.

(** A volume and its source: a claim, or one of the other kinds (two of
    them are kept, each by the name it refers to). *)
Record Volume : Type :=
  { Volume_Name : string;
    PersistentVolumeClaim : option PersistentVolumeClaimVolumeSource;
    Volume_ConfigMap : option string;
    Volume_Secret : option string }.

Record VolumeMount : Type :=
  { VolumeMount_Name : string; MountPath : string;
    VolumeMount_ReadOnly : bool }.

Record ObjectFieldSelector : Type := { FieldPath : string }.

Record EnvVarSource : Type := { FieldRef : option ObjectFieldSelector }.

Record EnvVar : Type :=
  { EnvVar_Name : string; Value : string; ValueFrom : option EnvVarSource }.

Record Container : Type :=
  { Container_Name : string;
    Image : string;
    Env : list EnvVar;
    Args : list string;
    VolumeMounts : list VolumeMount;
    Resources : ResourceRequirements;
    Container_SecurityContext : option SecurityContext }.

Record ObjectMeta : Type :=
  { Name : string; Namespace : string;
    Annotations : option (gmap string string) }.

Record PodSpec : Type :=
  { Volumes : list Volume;
    InitContainers : list Container;
    Containers : list Container }.

Record Pod : Type := { Pod_ObjectMeta : ObjectMeta; Spec : PodSpec }.

Record ConfigMap : Type :=
  { ConfigMap_Name : string; Data : gmap string string }.

End corev1api.

Import corev1api.

(** [m[k]] on a Go [map[string]string]: the empty string when absent. *)
Definition index (m : gmap string string) (k : string) : string :=
  default ""%string (m !! k).

(** The double-quote character, for format strings. *)
Definition dquote : string := String (ascii_of_nat 34) EmptyString.

(** ** internal/plugin/util/util.go *)

Module util.

(** [metav1.ListOptions] *)
Record ListOptions : Type := { LabelSelector : string }.

(** [corev1client.ConfigMapInterface]: its [List] method, the answer of
    the cluster to a list request. *)
Definition ConfigMapInterface : Type :=
  ListOptions -> list ConfigMap * option error.

(** [*kubernetes.Clientset], as far as the plugin uses it:
    [client.CoreV1().ConfigMaps(namespace)]. *)
Definition Clientset : Type := string -> ConfigMapInterface.

(** [resource.MustParse] at its one call site, the literal 0, which
    parses (see [MustParse_0]) so that the panic branch is dead. *)
Definition unbounded : resource.Quantity :=
  match resource.MustParse "0" with
  | Returned q => q
  | Panicked _ => resource.zeroQuantity
  end.

Definition quoted (what : string) : string :=
  (what +:+ dquote +:+ "%s" +:+ dquote)%string.

(** [limit != unbounded && request.Cmp(limit) > 0], with the receiver
    [request] as [Cmp] leaves it.  [Cmp] runs only when the left operand
    of [&&] is true. *)
Definition exceeds (request limit : resource.Quantity)
  : resource.Quantity * bool :=
  if negb (resource.Quantity_eqb limit unbounded)
  then let '(request', c) := resource.Cmp request limit in (request', 0 <? c)
  else (request, false).

(** [resources.X[name] = q] under the guard [q != unbounded]. *)
Definition setIfBounded (name : string) (q : resource.Quantity)
    (m : gmap string resource.Quantity) : gmap string resource.Quantity :=
  if negb (resource.Quantity_eqb q unbounded) then <[name := q]> m else m.

Definition ParseResourceRequirements
    (cpuRequest memRequest cpuLimit memLimit : string)
  : ResourceRequirements * option error :=
  let resources := {| Limits := ∅; Requests := ∅ |} in
  match resource.ParseQuantity cpuRequest with
  | (_, Some err) =>
      (resources,
       Some (Wrapf err (quoted "couldn't parse CPU request ")
               [ArgString cpuRequest]))
  | (parsedCPURequest, None) =>
  match resource.ParseQuantity memRequest with
  | (_, Some err) =>
      (resources,
       Some (Wrapf err (quoted "couldn't parse memory request ")
               [ArgString memRequest]))
  | (parsedMemRequest, None) =>
  match resource.ParseQuantity cpuLimit with
  | (_, Some err) =>
      (resources,
       Some (Wrapf err (quoted "couldn't parse CPU limit ")
               [ArgString cpuLimit]))
  | (parsedCPULimit, None) =>
  match resource.ParseQuantity memLimit with
  | (_, Some err) =>
      (resources,
       Some (Wrapf err (quoted "couldn't parse memory limit ")
               [ArgString memLimit]))
  | (parsedMemLimit, None) =>
      (* A quantity of 0 is treated as unbounded *)
      let '(parsedCPURequest, cpuOver) :=
        exceeds parsedCPURequest parsedCPULimit in
      if cpuOver then
        (resources,
         Some (WithStack
                 (Errorf (quoted "CPU request " +:+
                          quoted " must be less than or equal to CPU limit ")
                    [ArgString cpuRequest; ArgString cpuLimit])))
      else
        let '(parsedMemRequest, memOver) :=
          exceeds parsedMemRequest parsedMemLimit in
        if memOver then
          (resources,
           Some (WithStack
                   (Errorf (quoted "Memory request " +:+
                            quoted
                              " must be less than or equal to Memory limit ")
                      [ArgString memRequest; ArgString memLimit])))
        else
          (* Only set resources if they are not unbounded *)
          let requests :=
            setIfBounded ResourceMemory parsedMemRequest
              (setIfBounded ResourceCPU parsedCPURequest ∅) in
          let limits :=
            setIfBounded ResourceMemory parsedMemLimit
              (setIfBounded ResourceCPU parsedCPULimit ∅) in
          ({| Limits := limits; Requests := requests |}, None)
  end end end end.

Definition emptySecurityContext : SecurityContext :=
  {| RunAsUser := None; RunAsGroup := None;
     AllowPrivilegeEscalation := None |}.

Definition ParseSecurityContext
    (runAsUser runAsGroup allowPrivilegeEscalation : string)
  : SecurityContext * option error :=
  let securityContext := emptySecurityContext in
  (* runAsUser *)
  let step1 : SecurityContext * option error :=
    if negb (String.eqb runAsUser "") then
      match strconv.ParseInt runAsUser with
      | (_, Some _) =>
          (securityContext,
           Some (WithStack
                   (Errorf (quoted "Security context runAsUser " +:+
                            " is not a number")
                      [ArgString runAsUser])))
      | (parsedRunAsUser, None) =>
          ({| RunAsUser := Some parsedRunAsUser;
              RunAsGroup := RunAsGroup securityContext;
              AllowPrivilegeEscalation :=
                AllowPrivilegeEscalation securityContext |}, None)
      end
    else (securityContext, None) in
  match step1 with
  | (securityContext, Some e) => (securityContext, Some e)
  | (securityContext, None) =>
  (* runAsGroup *)
  let step2 : SecurityContext * option error :=
    if negb (String.eqb runAsGroup "") then
      match strconv.ParseInt runAsGroup with
      | (_, Some _) =>
          (securityContext,
           Some (WithStack
                   (Errorf (quoted "Security context runAsGroup " +:+
                            " is not a number")
                      [ArgString runAsGroup])))
      | (parsedRunAsGroup, None) =>
          ({| RunAsUser := RunAsUser securityContext;
              RunAsGroup := Some parsedRunAsGroup;
              AllowPrivilegeEscalation :=
                AllowPrivilegeEscalation securityContext |}, None)
      end
    else (securityContext, None) in
  match step2 with
  | (securityContext, Some e) => (securityContext, Some e)
  | (securityContext, None) =>
  (* allowPrivilegeEscalation *)
  if negb (String.eqb allowPrivilegeEscalation "") then
    match strconv.ParseBool allowPrivilegeEscalation with
    | (_, Some _) =>
        (securityContext,
         Some (WithStack
                 (Errorf (quoted "Security context allowPrivilegeEscalation "
                          +:+ " is not a boolean")
                    [ArgString allowPrivilegeEscalation])))
    | (parsedAllowPrivilegeEscalation, None) =>
        ({| RunAsUser := RunAsUser securityContext;
            RunAsGroup := RunAsGroup securityContext;
            AllowPrivilegeEscalation :=
              Some parsedAllowPrivilegeEscalation |}, None)
    end
  else (securityContext, None)
  end end.

(** [GetPluginConfig]: the single ConfigMap carrying the plugin's labels,
    nil when there is none, an error when there are several. *)
Definition GetPluginConfig (kind name : string) (client : ConfigMapInterface)
  : option ConfigMap * option error :=
  let opts :=
    {| LabelSelector :=
         ("velero.io/plugin-config," +:+ name +:+ "=" +:+ kind)%string |} in
  match client opts with
  | (_, Some err) => (None, Some (WithStack err))
  | (list, None) =>
      if (length list =? 0)%nat then (None, None)
      else if (1 <? length list)%nat then
        let items :=
          foldl (fun items item => items ++ [ConfigMap_Name item]) [] list in
        (None,
         Some (Errorf
                 "found more than one ConfigMap matching label selector %q: %v"
                 [ArgString (LabelSelector opts); ArgStrings items]))
      else (list !! 0%nat, None)
  end.

(** [rest.Config], opaque to the plugin. *)
Record restConfig : Type := { Host : string }.

(** What the process finds around it when it builds a client: the result
    of [kubeConfig.ClientConfig()] and of [kubernetes.NewForConfig]. *)
Record Ambient : Type :=
  { ClientConfig : restConfig * option error;
    NewForConfig : restConfig -> Clientset * option error }.

(** [GetClients].  A nil client comes with a non-nil error only. *)
Definition GetClients (env : Ambient) : option Clientset * option error :=
  match ClientConfig env with
  | (_, Some err) => (None, Some (WithStack err))
  | (clientConfig, None) =>
      match NewForConfig env clientConfig with
      | (_, Some err) => (None, Some (WithStack err))
      | (client, None) => (Some client, None)
      end
  end.

End util.

(** ** The generic item (runtime.Unstructured)

    The item arrives and leaves as a schema-less document.  The plugin
    touches it through four operations of the apimachinery library only,
    which are taken as an interface: the metadata accessor with its
    annotation getter and setter, and the converter between documents and
    typed Pods. *)

Class Unstructured (U : Type) : Type :=
  { Accessor : U -> option error;
    GetAnnotations : U -> option (gmap string string);
    SetAnnotations : gmap string string -> U -> U;
    FromUnstructured : U -> Pod * option error;
    ToUnstructured : Pod -> U * option error }.

(** ** internal/plugin/restore/restorePodActionPlugin.go *)

Module plugin.

Definition RestorePodActionPluginName : string :=
  "catalogicsoftware.com/offload-restore-pod-action-plugin".

(** [framework.PluginKindRestoreItemAction] (velero v1.3.2) *)
Definition PluginKindRestoreItemAction : string := "RestoreItemAction".

Record initcontainerConfig : Type :=
  { clusterID : string;
    kubeMoverPodNamePrefix : string;
    kubeMoverImage : string;
    serverAddr : string;
    useTLS : string;
    cpuRequest : string;
    cpuLimit : string;
    memRequest : string;
    memLimit : string;
    runAsRoot : string;
    runAsGroup : string;
    allowPrivilegeEscalation : string }.

Definition set_cpuRequest (v : string) (c : initcontainerConfig) :=
  {| clusterID := clusterID c;
     kubeMoverPodNamePrefix := kubeMoverPodNamePrefix c;
     kubeMoverImage := kubeMoverImage c; serverAddr := serverAddr c;
     useTLS := useTLS c; cpuRequest := v; cpuLimit := cpuLimit c;
     memRequest := memRequest c; memLimit := memLimit c;
     runAsRoot := runAsRoot c; runAsGroup := runAsGroup c;
     allowPrivilegeEscalation := allowPrivilegeEscalation c |}.

Definition set_cpuLimit (v : string) (c : initcontainerConfig) :=
  {| clusterID := clusterID c;
     kubeMoverPodNamePrefix := kubeMoverPodNamePrefix c;
     kubeMoverImage := kubeMoverImage c; serverAddr := serverAddr c;
     useTLS := useTLS c; cpuRequest := cpuRequest c; cpuLimit := v;
     memRequest := memRequest c; memLimit := memLimit c;
     runAsRoot := runAsRoot c; runAsGroup := runAsGroup c;
     allowPrivilegeEscalation := allowPrivilegeEscalation c |}.

Definition set_memRequest (v : string) (c : initcontainerConfig) :=
  {| clusterID := clusterID c;
     kubeMoverPodNamePrefix := kubeMoverPodNamePrefix c;
     kubeMoverImage := kubeMoverImage c; serverAddr := serverAddr c;
     useTLS := useTLS c; cpuRequest := cpuRequest c; cpuLimit := cpuLimit c;
     memRequest := v; memLimit := memLimit c;
     runAsRoot := runAsRoot c; runAsGroup := runAsGroup c;
     allowPrivilegeEscalation := allowPrivilegeEscalation c |}.

Definition set_memLimit (v : string) (c : initcontainerConfig) :=
  {| clusterID := clusterID c;
     kubeMoverPodNamePrefix := kubeMoverPodNamePrefix c;
     kubeMoverImage := kubeMoverImage c; serverAddr := serverAddr c;
     useTLS := useTLS c; cpuRequest := cpuRequest c; cpuLimit := cpuLimit c;
     memRequest := memRequest c; memLimit := v;
     runAsRoot := runAsRoot c; runAsGroup := runAsGroup c;
     allowPrivilegeEscalation := allowPrivilegeEscalation c |}.

(** The struct literal of [newInitcontainerConfig] and the four
    conditional assignments after it.  The literal names eight fields;
    the four resource strings start at Go's zero value, the empty
    string. *)
Definition configFromData (data : gmap string string) : initcontainerConfig :=
  let i :=
    {| clusterID := index data "clusterID";
       kubeMoverPodNamePrefix := index data "kubeMoverPodNamePrefix";
       kubeMoverImage := index data "kubeMoverImage";
       serverAddr := index data "serverAddr";
       useTLS := index data "useTLS";
       cpuRequest := "";
       cpuLimit := "";
       memRequest := "";
       memLimit := "";
       runAsRoot := index data "runAsRoot";
       runAsGroup := index data "runAsGroup";
       allowPrivilegeEscalation := index data "allowPrivilegeEscalation" |} in
  let i := if String.eqb (index data "cpuRequest") ""
           then set_cpuRequest "100m" i else i in
  let i := if String.eqb (index data "cpuLimit") ""
           then set_cpuLimit "128Mi" i else i in
  let i := if String.eqb (index data "memRequest") ""
           then set_memRequest "100m" i else i in
  let i := if String.eqb (index data "memLimit") ""
           then set_memLimit "128Mi" i else i in
  i.

Definition newInitcontainerConfig (env : util.Ambient)
  : outcome (option initcontainerConfig * option error) :=
  match util.GetClients env with
  | (_, Some err) => Returned (None, Some err)
  | (None, None) => Panicked nilDereference
  | (Some client, None) =>
      let configClientSet := client "cloudcasa-io"%string in
      match util.GetPluginConfig PluginKindRestoreItemAction
              RestorePodActionPluginName configClientSet with
      | (_, Some err) => Returned (None, Some err)
      | (None, None) =>
          (* config.Data on a nil *ConfigMap *)
          Panicked nilDereference
      | (Some config, None) => Returned (Some (configFromData (Data config)), None)
      end
  end.

(** [velerov1api.Restore]: its object metadata's annotations. *)
Record Restore : Type := { Restore_Annotations : option (gmap string string) }.

Record RestoreItemActionExecuteInput (U : Type) : Type :=
  { Item : U; Restore_ : Restore }.
Arguments Item {U} _.
Arguments Restore_ {U} _.

Record RestoreItemActionExecuteOutput (U : Type) : Type :=
  { UpdatedItem : option U }.
Arguments UpdatedItem {U} _.

Definition NewRestoreItemActionExecuteOutput {U : Type} (item : U)
  : RestoreItemActionExecuteOutput U :=
  {| UpdatedItem := Some item |}.

(** One round of the loop over [pod.Spec.Volumes]. *)
Definition volumeStep
    (acc : list Volume * list VolumeMount * list string) (volume : Volume)
  : list Volume * list VolumeMount * list string :=
  let '(podVolumes, podVolumeMounts, podMountPoints) := acc in
  match PersistentVolumeClaim volume with
  | None => acc
  | Some pvc =>
      let claimName := ClaimName pvc in
      let podVolumes :=
        podVolumes ++
          [{| Volume_Name := Volume_Name volume;
              PersistentVolumeClaim :=
                Some {| ClaimName := claimName; PVC_ReadOnly := false |};
              Volume_ConfigMap := None;
              Volume_Secret := None |}] in
      let mountPath := ("/" +:+ claimName)%string in
      let podVolumeMounts :=
        podVolumeMounts ++
          [{| VolumeMount_Name := Volume_Name volume;
              MountPath := mountPath;
              VolumeMount_ReadOnly := false |}] in
      let podMountPoints := podMountPoints ++ [mountPath] in
      (podVolumes, podVolumeMounts, podMountPoints)
  end.

(** The loop: the volumes, the mounts and the mount paths it collects. *)
Definition bindVolumes (volumes : list Volume)
  : list Volume * list VolumeMount * list string :=
  foldl volumeStep ([], [], []) volumes.

(** The [corev1api.Container] literal of [Execute]. *)
Definition buildInitContainer (initContainerConfig : initcontainerConfig)
    (initcontainerName : string) (podVolumeMounts : list VolumeMount)
    (podMountPoints : list string) (resourceReqs : ResourceRequirements)
    (securityContext : SecurityContext) : Container :=
  {| Container_Name := initcontainerName;
     Image := kubeMoverImage initContainerConfig;
     Env :=
       [ {| EnvVar_Name := "AMDS_CLUSTER_ID";
            Value := clusterID initContainerConfig;
            ValueFrom := None |};
         {| EnvVar_Name := "POD_NAMESPACE";
            Value := "";
            ValueFrom :=
              Some {| FieldRef :=
                        Some {| FieldPath := "metadata.namespace" |} |} |};
         {| EnvVar_Name := "POD_NAME";
            Value := "";
            ValueFrom :=
              Some {| FieldRef :=
                        Some {| FieldPath := "metadata.name" |} |} |} ];
     Args :=
       ["/usr/local/bin/kubemover"; "--server_addr";
        serverAddr initContainerConfig; "--tls";
        useTLS initContainerConfig]%string ++ podMountPoints;
     VolumeMounts := podVolumeMounts;
     Resources := resourceReqs;
     Container_SecurityContext := Some securityContext |}.

(** The [if]/[else] that puts the container into the init-container
    list. *)
Definition mergeInitContainer (initContainer : Container)
    (initcontainerName : string) (initContainers : list Container)
  : list Container :=
  if (length initContainers =? 0)%nat
     || negb (String.eqb
                (default ""%string (Container_Name <$> initContainers !! 0%nat))
                initcontainerName)
  then [initContainer] ++ initContainers
  else <[0%nat := initContainer]> initContainers.

Definition set_InitContainers (l : list Container) (pod : Pod) : Pod :=
  {| Pod_ObjectMeta := Pod_ObjectMeta pod;
     Spec := {| Volumes := Volumes (Spec pod);
                InitContainers := l;
                Containers := Containers (Spec pod) |} |}.

(** [initContainerConfig.kubeMoverPodNamePrefix + pod.Name] *)
Definition initcontainerNameFor (initContainerConfig : initcontainerConfig)
    (pod : Pod) : string :=
  (kubeMoverPodNamePrefix initContainerConfig
     +:+ Name (Pod_ObjectMeta pod))%string.

(** The container [Execute] builds for a configuration and a Pod.  Both
    parsers hand back a value and an error; [Execute] assigns the error
    to [err] and never reads it, so the value is used whatever the
    error. *)
Definition initContainerFor (initContainerConfig : initcontainerConfig)
    (pod : Pod) : Container :=
  let '(_, podVolumeMounts, podMountPoints) :=
    bindVolumes (Volumes (Spec pod)) in
  let '(resourceReqs, _) :=
    util.ParseResourceRequirements
      (cpuRequest initContainerConfig) (memRequest initContainerConfig)
      (cpuLimit initContainerConfig) (memLimit initContainerConfig) in
  let '(securityContext, _) :=
    util.ParseSecurityContext
      (runAsRoot initContainerConfig) (runAsGroup initContainerConfig)
      (allowPrivilegeEscalation initContainerConfig) in
  let initcontainerName := initcontainerNameFor initContainerConfig pod in
  buildInitContainer initContainerConfig initcontainerName podVolumeMounts
    podMountPoints resourceReqs securityContext.

(** The typed part of [Execute]: from the decoded Pod and the
    configuration to the Pod that is encoded again. *)
Definition mutatePod (initContainerConfig : initcontainerConfig) (pod : Pod)
  : Pod :=
  let initcontainerName := initcontainerNameFor initContainerConfig pod in
  let initContainer := initContainerFor initContainerConfig pod in
  set_InitContainers
    (mergeInitContainer initContainer initcontainerName
       (InitContainers (Spec pod)))
    pod.

Section Execute.

Context {U : Type} `{Unstructured U}.

Definition presenceAnnotation : string :=
  "catalogicsoftware.com/offload-restore-pod-action-plugin".

(** [Execute]: the item as the call leaves it (the accessor writes the
    annotations into the caller's object), and what the call returns. *)
Definition Execute (env : util.Ambient) (input : RestoreItemActionExecuteInput U)
  : U * outcome (option (RestoreItemActionExecuteOutput U) * option error) :=
  let passThrough :=
    (Item input,
     Returned (Some (NewRestoreItemActionExecuteOutput (Item input)), None)) in
  match Restore_Annotations (Restore_ input) with
  | None => passThrough
  | Some restoreObjectAnnotations =>
  match restoreObjectAnnotations !! "cloudcasa-restore-from-offload"%string with
  | None => passThrough
  | Some _ =>
  match Accessor (Item input) with
  | Some err => (Item input, Returned (Some {| UpdatedItem := None |}, Some err))
  | None =>
      let annotations := default ∅ (GetAnnotations (Item input)) in
      let annotations := <[presenceAnnotation := "1"%string]> annotations in
      let item := SetAnnotations annotations (Item input) in
      match FromUnstructured item with
      | (_, Some err) =>
          (item,
           Returned (None,
                     Some (Wrap err "Unable to convert unstructured item to pod")))
      | (pod, None) =>
          match newInitcontainerConfig env with
          | Panicked reason => (item, Panicked reason)
          | Returned (None, _) => (item, Panicked nilDereference)
          | Returned (Some initContainerConfig, _) =>
              let pod := mutatePod initContainerConfig pod in
              match ToUnstructured pod with
              | (_, Some err) =>
                  (item,
                   Returned
                     (None,
                      Some (Wrap err
                              "unable to convert pod to runtime.Unstructured")))
              | (res, None) =>
                  (item,
                   Returned
                     (Some (NewRestoreItemActionExecuteOutput res), None))
              end
          end
      end
  end end end.

End Execute.

End plugin.

Import plugin.

(** ** Vocabulary of the specification *)

(** The Mutation Gate: the restore carries an annotation mapping and the
    mapping has the marker key (whatever its value). *)
Definition gateOpen (r : Restore) : bool :=
  match Restore_Annotations r with
  | None => false
  | Some m => bool_decide (is_Some (m !! "cloudcasa-restore-from-offload"%string))
  end.

(** A VolumeBinding: claim name, volume name, derived mount path. *)
Record VolumeBinding : Type :=
  { claim : string; volume : string; mountPath : string }.

Definition bindingOf (v : Volume) : option VolumeBinding :=
  match PersistentVolumeClaim v with
  | None => None
  | Some pvc =>
      Some {| claim := ClaimName pvc; volume := Volume_Name v;
              mountPath := ("/" +:+ ClaimName pvc)%string |}
  end.

(** One binding per claim-backed volume, in declaration order. *)
Definition volumeBindings (volumes : list Volume) : list VolumeBinding :=
  omap bindingOf volumes.

Definition bindingVolume (b : VolumeBinding) : Volume :=
  {| Volume_Name := volume b;
     PersistentVolumeClaim :=
       Some {| ClaimName := claim b; PVC_ReadOnly := false |};
     Volume_ConfigMap := None; Volume_Secret := None |}.

Definition bindingMount (b : VolumeBinding) : VolumeMount :=
  {| VolumeMount_Name := volume b; MountPath := mountPath b;
     VolumeMount_ReadOnly := false |}.

(** A volume refers to a persistent-volume claim; the claim it names. *)
Definition hasClaim (v : Volume) : bool :=
  match PersistentVolumeClaim v with Some _ => true | None => false end.

Definition claimOf (v : Volume) : string :=
  match PersistentVolumeClaim v with
  | Some pvc => ClaimName pvc
  | None => ""
  end.


(** The init containers that stay behind the injected one: the list
    without a leading container of the injected name. *)
Definition othersOf (n : string) (l : list Container) : list Container :=
  match l with
  | c0 :: rest => if String.eqb (Container_Name c0) n then rest else l
  | [] => []
  end.

(** The item as the accessor leaves it once the gate is open: its
    annotations with the presence annotation added. *)
Definition tagged {U : Type} `{Unstructured U} (item : U) : U :=
  SetAnnotations
    (<[presenceAnnotation := "1"]> (default ∅ (GetAnnotations item))) item.

(** The label selector that locates the configuration record. *)
Definition selectorOf (kind name : string) : string :=
  "velero.io/plugin-config," +:+ name +:+ "=" +:+ kind.

(** [ResourceRequirements] with both maps empty. *)
Definition noResources : ResourceRequirements :=
  {| Limits := ∅; Requests := ∅ |}.


(** A string is acceptable to [ParseSecurityContext] as a number, resp. as
    a boolean: it is empty or it parses. *)
Definition numberOrEmpty (s : string) : bool :=
  String.eqb s "" || bool_decide (snd (strconv.ParseInt s) = None).

Definition booleanOrEmpty (s : string) : bool :=
  String.eqb s "" || bool_decide (snd (strconv.ParseBool s) = None).

(** ** A concrete document type for worked examples

    A document either holds a Pod, which the converter decodes and
    encodes without loss, or is of another kind, which it rejects. *)

Inductive document : Type :=
| PodDocument (pod : Pod)
| OtherDocument (kind : string) (annotations : option (gmap string string)).

Definition emptyPod : Pod :=
  {| Pod_ObjectMeta := {| Name := ""; Namespace := ""; Annotations := None |};
     Spec := {| Volumes := []; InitContainers := []; Containers := [] |} |}.

Definition set_Annotations (a : gmap string string) (pod : Pod) : Pod :=
  {| Pod_ObjectMeta :=
       {| Name := Name (Pod_ObjectMeta pod);
          Namespace := Namespace (Pod_ObjectMeta pod);
          Annotations := Some a |};
     Spec := Spec pod |}.

#[export] Instance document_Unstructured : Unstructured document :=
  {| Accessor := fun _ => None;
     GetAnnotations := fun u =>
       match u with
       | PodDocument pod => Annotations (Pod_ObjectMeta pod)
       | OtherDocument _ a => a
       end;
     SetAnnotations := fun a u =>
       match u with
       | PodDocument pod => PodDocument (set_Annotations a pod)
       | OtherDocument k _ => OtherDocument k (Some a)
       end;
     FromUnstructured := fun u =>
       match u with
       | PodDocument pod => (pod, None)
       | OtherDocument _ _ =>
           (emptyPod, Some (External "cannot convert the document to a Pod"))
       end;
     ToUnstructured := fun pod => (PodDocument pod, None) |}.

(** A cluster that answers every list request with [cms]. *)
Definition clusterWith (cms : list ConfigMap) : util.Ambient :=
  {| util.ClientConfig := ({| util.Host := "https://kubernetes.default" |}, None);
     util.NewForConfig := fun _ => (fun _ _ => (cms, None), None) |}.

(** A cluster whose list requests fail. *)
Definition clusterFailing (e : error) : util.Ambient :=
  {| util.ClientConfig := ({| util.Host := "https://kubernetes.default" |}, None);
     util.NewForConfig := fun _ => (fun _ _ => ([], Some e), None) |}.

Definition pvcVolume (name claimName : string) : Volume :=
  {| Volume_Name := name;
     PersistentVolumeClaim :=
       Some {| ClaimName := claimName; PVC_ReadOnly := false |};
     Volume_ConfigMap := None; Volume_Secret := None |}.

Definition configMapVolume (name cm : string) : Volume :=
  {| Volume_Name := name; PersistentVolumeClaim := None;
     Volume_ConfigMap := Some cm; Volume_Secret := None |}.

(** A Pod named web with one config-map volume and two claims. *)
Definition webPod : Pod :=
  {| Pod_ObjectMeta :=
       {| Name := "web"; Namespace := "shop"; Annotations := None |};
     Spec :=
       {| Volumes := [configMapVolume "settings" "web-settings";
                      pvcVolume "data-volume" "data";
                      pvcVolume "logs-volume" "logs"];
          InitContainers := [];
          Containers := [] |} |}.

Definition offloadRestore : Restore :=
  {| Restore_Annotations :=
       Some {[ "cloudcasa-restore-from-offload"%string := "true"%string ]} |}.

Definition plainRestore : Restore := {| Restore_Annotations := None |}.

Definition moverConfig (extra : list (string * string)) : ConfigMap :=
  {| ConfigMap_Name := "kubemover-config";
     Data := list_to_map
               ([("clusterID", "c-42"); ("kubeMoverPodNamePrefix", "mover-");
                 ("kubeMoverImage", "registry/kubemover:1");
                 ("serverAddr", "amds:443"); ("useTLS", "true")]%string
                ++ extra) |}.

(** ** internal/plugin/util/util.go: helpers on claims, pods and metadata

    The functions of package util that the Pod action does not call. *)

Module metav1.

(** [metav1.ObjectMeta]: the two maps the helpers write. *)
Record ObjectMeta : Type :=
  { Annotations : option (gmap string string);
    Labels : option (gmap string string) }.

End metav1.

Module util_helpers.

(** [corev1api.PersistentVolumeClaim], the object (not the volume source
    of a Pod): namespace, name, [Spec.VolumeName] and [Status.Phase]. *)
Record Claim : Type :=
  { Claim_Namespace : string; Claim_Name : string;
    VolumeName : string; Phase : string }.

(** [corev1api.ClaimBound] *)
Definition ClaimBound : string := "Bound".

(** [corev1api.PersistentVolume], by its name. *)
Record PersistentVolume : Type := { PV_Name : string }.

(** [corev1client.PersistentVolumesGetter]:
    [corev1.PersistentVolumes().Get(name, metav1.GetOptions{})]. *)
Definition PersistentVolumesGetter : Type :=
  string -> option PersistentVolume * option error.

(** [corev1client.PodsGetter]: [corev1.Pods(namespace).List(opts)]. *)
Definition PodsGetter : Type :=
  string -> util.ListOptions -> list Pod * option error.

(** [GetPVForPVC] returns a PV object bound to a PVC. *)
Definition GetPVForPVC (pvc : Claim) (corev1 : PersistentVolumesGetter)
  : option PersistentVolume * option error :=
  if String.eqb (VolumeName pvc) "" then
    (None,
     Some (Errorf "PVC %s/%s has no volume backing this claim"
             [ArgString (Claim_Namespace pvc); ArgString (Claim_Name pvc)]))
  else if negb (String.eqb (Phase pvc) ClaimBound) then
    (None,
     Some (Errorf "PVC %s/%s is in phase %v and is not bound to a volume"
             [ArgString (Claim_Namespace pvc); ArgString (Claim_Name pvc);
              ArgString (Phase pvc)]))
  else
    let pvName := VolumeName pvc in
    match corev1 pvName with
    | (_, Some err) =>
        (None,
         Some (Wrapf err "failed to get PV %s for PVC %s/%s"
                 [ArgString pvName; ArgString (Claim_Namespace pvc);
                  ArgString (Claim_Name pvc)]))
    | (pv, None) => (pv, None)
    end.

(** The test of both loops over volumes:
    [v.PersistentVolumeClaim != nil && v.PersistentVolumeClaim.ClaimName == pvcName]. *)
Definition usesClaim (pvcName : string) (v : Volume) : bool :=
  match PersistentVolumeClaim v with
  | Some source => String.eqb (ClaimName source) pvcName
  | None => false
  end.

(** [GetPodsUsingPVC] lists all pods where this PVC is used.  The slice
    is nil next to an error. *)
Definition GetPodsUsingPVC (pvcNamespace pvcName : string)
    (corev1 : PodsGetter) : option (list Pod) * option error :=
  let podsUsingPVC : list Pod := [] in
  match corev1 pvcNamespace {| util.LabelSelector := "" |} with
  | (_, Some err) => (None, Some err)
  | (podList, None) =>
      (Some
         (foldl
            (fun podsUsingPVC p =>
               foldl
                 (fun podsUsingPVC v =>
                    if usesClaim pvcName v then podsUsingPVC ++ [p]
                    else podsUsingPVC)
                 podsUsingPVC (Volumes (Spec p)))
            podsUsingPVC podList),
       None)
  end.

(** The loop of [GetPodVolumeNameForPVC]: the name of the first volume
    that passes the test. *)
Fixpoint firstVolumeUsing (pvcName : string) (volumes : list Volume)
  : option string :=
  match volumes with
  | [] => None
  | v :: volumes' =>
      if usesClaim pvcName v then Some (Volume_Name v)
      else firstVolumeUsing pvcName volumes'
  end.

(** [GetPodVolumeNameForPVC] returns the volume name in a POD spec for a
    particular PVC. *)
Definition GetPodVolumeNameForPVC (pod : Pod) (pvcName : string)
  : string * option error :=
  match firstVolumeUsing pvcName (Volumes (Spec pod)) with
  | Some name => (name, None)
  | None =>
      (""%string,
       Some (Errorf "Pod %s/%s does not use PVC %s/%s"
               [ArgString (Namespace (Pod_ObjectMeta pod));
                ArgString (Name (Pod_ObjectMeta pod));
                ArgString (Namespace (Pod_ObjectMeta pod));
                ArgString pvcName]))
  end.

(** [Contains] checks if a key is present in a slice. *)
Fixpoint Contains (slice : list string) (key : string) : bool :=
  match slice with
  | [] => false
  | i :: slice' => if String.eqb i key then true else Contains slice' key
  end.

(** [AddAnnotations] adds the supplied key-values to the annotations on
    the object.  The object is written in place: the result is the object
    afterwards.  The loop visits the entries of [vals] in the order of the
    map. *)
Definition AddAnnotations (o : metav1.ObjectMeta) (vals : gmap string string)
  : metav1.ObjectMeta :=
  let annotations :=
    match metav1.Annotations o with
    | None => ∅
    | Some m => m
    end in
  {| metav1.Annotations :=
       Some (map_fold (fun k v (m : gmap string string) => <[k := v]> m)
               annotations vals);
     metav1.Labels := metav1.Labels o |}.

Section AddLabels.

(** [label.GetValidName] of velero: the label value made to fit the length
    limit of the cluster. *)
Variable GetValidName : string -> string.

(** [AddLabels] adds the supplied key-values to the labels on the
    object. *)
Definition AddLabels (o : metav1.ObjectMeta) (vals : gmap string string)
  : metav1.ObjectMeta :=
  let labels :=
    match metav1.Labels o with
    | None => ∅
    | Some m => m
    end in
  {| metav1.Annotations := metav1.Annotations o;
     metav1.Labels :=
       Some (map_fold
               (fun k v (m : gmap string string) => <[k := GetValidName v]> m)
               labels vals) |}.

End AddLabels.

End util_helpers.

(** ** Vocabulary for the further properties *)

(** The annotations and the labels of an object, a nil map read as
    empty. *)
Definition annotationsOf (o : metav1.ObjectMeta) : gmap string string :=
  default ∅ (metav1.Annotations o).

Definition labelsOf (o : metav1.ObjectMeta) : gmap string string :=
  default ∅ (metav1.Labels o).

(** How many volumes of a Pod use a claim. *)
Definition usesOf (pvcName : string) (p : Pod) : nat :=
  length (List.filter (util_helpers.usesClaim pvcName) (Volumes (Spec p))).

(** The four resource keys are all absent from (or empty in) a record. *)
Definition noResourceKeys (data : gmap string string) : bool :=
  String.eqb (index data "cpuRequest") ""
  && String.eqb (index data "cpuLimit") ""
  && String.eqb (index data "memRequest") ""
  && String.eqb (index data "memLimit") "".

(** The answer of the cluster to the resolver's list request. *)
Definition configAnswer (client : util.Clientset)
  : list ConfigMap * option error :=
  client "cloudcasa-io"
    {| util.LabelSelector :=
         selectorOf PluginKindRestoreItemAction RestorePodActionPluginName |}.

(** A document that the converter rejects. *)
Definition strayDocument : document := OtherDocument "ConfigMap" None.

(** * Properties *)

(** ** The library models on sample inputs *)

Example ParseInt_examples :
  strconv.ParseInt "0" = (0, None) /\
  strconv.ParseInt "-42" = (-42, None) /\
  strconv.ParseInt "+7" = (7, None) /\
  strconv.ParseInt "abc" = (0, Some (NumError "ParseInt" "abc" false)) /\
  strconv.ParseInt "" = (0, Some (NumError "ParseInt" "" false)) /\
  strconv.ParseInt "9223372036854775807" = (2 ^ 63 - 1, None) /\
  strconv.ParseInt "9223372036854775808"
    = (2 ^ 63 - 1, Some (NumError "ParseInt" "9223372036854775808" true)) /\
  strconv.ParseInt "-9223372036854775808" = (- 2 ^ 63, None).
Proof. repeat split; reflexivity. Qed.


Example ParseQuantity_examples :
  resource.ParseQuantity "0"
    = ({| resource.i := {| resource.value := 0; resource.scale := 0 |};
          resource.d := None; resource.s := "";
          resource.format := "DecimalSI" |}, None) /\
  resource.ParseQuantity "200m"
    = ({| resource.i := {| resource.value := 200; resource.scale := -3 |};
          resource.d := None; resource.s := "200m";
          resource.format := "DecimalSI" |}, None) /\
  resource.ParseQuantity "128Mi"
    = ({| resource.i := {| resource.value := 134217728;
                           resource.scale := 0 |};
          resource.d := None; resource.s := "";
          resource.format := "BinarySI" |}, None) /\
  resource.ParseQuantity "0m"
    = ({| resource.i := {| resource.value := 0; resource.scale := -3 |};
          resource.d := None; resource.s := "";
          resource.format := "DecimalSI" |}, None) /\
  resource.ParseQuantity "1.5Gi"
    = ({| resource.i := resource.zeroAmount;
          resource.d := Some {| resource.unscaled := 1610612736000000000;
                                resource.dscale := 9 |};
          resource.s := ""; resource.format := "BinarySI" |}, None) /\
  resource.ParseQuantity "" = (resource.zeroQuantity, Some ErrFormatWrong) /\
  resource.ParseQuantity "abc" = (resource.zeroQuantity, Some ErrFormatWrong) /\
  resource.ParseQuantity "1mm" = (resource.zeroQuantity, Some ErrSuffix).
Proof. repeat split; vm_compute; reflexivity. Qed.

(** ** The volume binder *)

Lemma foldl_volumeStep (volumes : list Volume) :
  forall pv pm pp,
    foldl volumeStep (pv, pm, pp) volumes
    = (pv ++ map bindingVolume (volumeBindings volumes),
       pm ++ map bindingMount (volumeBindings volumes),
       pp ++ map mountPath (volumeBindings volumes)).
Proof.
  induction volumes as [|v volumes IH]; intros pv pm pp.
  - simpl. by rewrite !app_nil_r.
  - change (foldl volumeStep (pv, pm, pp) (v :: volumes))
      with (foldl volumeStep (volumeStep (pv, pm, pp) v) volumes).
    unfold volumeBindings in *. cbn [omap list_omap].
    assert (Hstep : volumeStep (pv, pm, pp) v
                    = match bindingOf v with
                      | Some b => (pv ++ [bindingVolume b],
                                   pm ++ [bindingMount b],
                                   pp ++ [mountPath b])
                      | None => (pv, pm, pp)
                      end).
    { unfold volumeStep, bindingOf.
      destruct (PersistentVolumeClaim v); reflexivity. }
    rewrite Hstep. destruct (bindingOf v) as [b|]; simpl.
    + rewrite IH, <- !app_assoc. reflexivity.
    + apply IH.
Qed.

Lemma bindVolumes_bindings (volumes : list Volume) :
  bindVolumes volumes
  = (map bindingVolume (volumeBindings volumes),
     map bindingMount (volumeBindings volumes),
     map mountPath (volumeBindings volumes)).
Proof. unfold bindVolumes. by rewrite foldl_volumeStep. Qed.

Lemma volumeBindings_filter (volumes : list Volume) :
  volumeBindings volumes
  = map (fun v => {| claim := claimOf v; volume := Volume_Name v;
                     mountPath := "/" +:+ claimOf v |})
        (List.filter hasClaim volumes).
Proof.
  induction volumes as [|v volumes IH]; [reflexivity|].
  unfold volumeBindings in *.
  destruct v as [n [pvc|] cm sec]; cbn; by rewrite IH.
Qed.

(** C6: the loop over the Pod's volumes yields one mount and one mount
    path per volume that refers to a persistent-volume claim, in the order
    of the volumes, the path being a slash followed by the claim name;
    other volumes are passed over and the loop has no failure.  A
    config-map volume followed by the claims data and logs gives the two
    paths /data and /logs. *)
Theorem volume_binder (volumes : list Volume) :
  let '(podVolumes, podVolumeMounts, podMountPoints) := bindVolumes volumes in
  podMountPoints = map (fun v => "/" +:+ claimOf v) (List.filter hasClaim volumes)
  /\ podVolumeMounts
     = map (fun v => {| VolumeMount_Name := Volume_Name v;
                        MountPath := "/" +:+ claimOf v;
                        VolumeMount_ReadOnly := false |})
           (List.filter hasClaim volumes)
  /\ length podVolumeMounts = length (List.filter hasClaim volumes)
  /\ bindVolumes [configMapVolume "settings" "web-settings";
                  pvcVolume "data-volume" "data";
                  pvcVolume "logs-volume" "logs"]
     = ([pvcVolume "data-volume" "data"; pvcVolume "logs-volume" "logs"],
        [ {| VolumeMount_Name := "data-volume"; MountPath := "/data";
             VolumeMount_ReadOnly := false |};
          {| VolumeMount_Name := "logs-volume"; MountPath := "/logs";
             VolumeMount_ReadOnly := false |} ],
        ["/data"; "/logs"]).
Proof.
  rewrite bindVolumes_bindings, volumeBindings_filter, !map_map. simpl.
  repeat split. by rewrite length_map.
Qed.

(** ** The injected container *)

Lemma initContainerFor_eq (cfg : initcontainerConfig) (pod : Pod) :
  initContainerFor cfg pod
  = buildInitContainer cfg (initcontainerNameFor cfg pod)
      (map bindingMount (volumeBindings (Volumes (Spec pod))))
      (map mountPath (volumeBindings (Volumes (Spec pod))))
      (fst (util.ParseResourceRequirements (cpuRequest cfg) (memRequest cfg)
              (cpuLimit cfg) (memLimit cfg)))
      (fst (util.ParseSecurityContext (runAsRoot cfg) (runAsGroup cfg)
              (allowPrivilegeEscalation cfg))).
Proof.
  unfold initContainerFor. rewrite bindVolumes_bindings.
  destruct (util.ParseResourceRequirements _ _ _ _) as [rr e1].
  destruct (util.ParseSecurityContext _ _ _) as [sc e2].
  reflexivity.
Qed.

Lemma initContainerFor_name (cfg : initcontainerConfig) (pod : Pod) :
  Container_Name (initContainerFor cfg pod) = initcontainerNameFor cfg pod.
Proof. by rewrite initContainerFor_eq. Qed.

(** The container depends on the Pod through its name and its volumes
    only, which the mutation leaves alone. *)
Lemma initContainerFor_mutatePod (cfg : initcontainerConfig) (pod : Pod) :
  initContainerFor cfg (mutatePod cfg pod) = initContainerFor cfg pod.
Proof. by rewrite !initContainerFor_eq. Qed.

Lemma mergeInitContainer_cases (c : Container) (n : string)
    (l : list Container) :
  mergeInitContainer c n l = c :: othersOf n l.
Proof.
  unfold mergeInitContainer, othersOf.
  destruct l as [|c0 rest]; [reflexivity|]. cbn.
  destruct (String.eqb (Container_Name c0) n); reflexivity.
Qed.

Lemma merge_prepends (c : Container) (n : string) (l : list Container) :
  l = [] \/ (exists c0 rest, l = c0 :: rest /\ Container_Name c0 <> n) ->
  mergeInitContainer c n l = c :: l.
Proof.
  rewrite mergeInitContainer_cases.
  intros [->|(c0 & rest & -> & Hne)]; [reflexivity|]. cbn.
  apply String.eqb_neq in Hne. by rewrite Hne.
Qed.

Lemma merge_replaces (c c0 : Container) (rest : list Container) :
  mergeInitContainer c (Container_Name c0) (c0 :: rest) = c :: rest.
Proof.
  rewrite mergeInitContainer_cases. cbn. by rewrite String.eqb_refl.
Qed.

Lemma mutatePod_InitContainers (cfg : initcontainerConfig) (pod : Pod) :
  InitContainers (Spec (mutatePod cfg pod))
  = initContainerFor cfg pod
      :: othersOf (initcontainerNameFor cfg pod) (InitContainers (Spec pod)).
Proof. unfold mutatePod. cbn. apply mergeInitContainer_cases. Qed.

(** C9: the injected container of every mutated Pod is named prefix +
    Pod name; its arguments are the binary, the server address flag and
    value, the TLS flag and value, then the mount path of every
    claim-backed volume in declaration order; its environment gives
    AMDS_CLUSTER_ID as a literal and POD_NAMESPACE and POD_NAME by field
    reference. *)
Theorem injected_container_shape (cfg : initcontainerConfig) (pod : Pod) :
  let c := initContainerFor cfg pod in
  head (InitContainers (Spec (mutatePod cfg pod))) = Some c
  /\ Container_Name c = kubeMoverPodNamePrefix cfg +:+ Name (Pod_ObjectMeta pod)
  /\ Args c
     = ["/usr/local/bin/kubemover"; "--server_addr"; serverAddr cfg;
        "--tls"; useTLS cfg]
       ++ map (fun v => "/" +:+ claimOf v)
            (List.filter hasClaim (Volumes (Spec pod)))
  /\ Env c
     = [ {| EnvVar_Name := "AMDS_CLUSTER_ID"; Value := clusterID cfg;
            ValueFrom := None |};
         {| EnvVar_Name := "POD_NAMESPACE"; Value := "";
            ValueFrom :=
              Some {| FieldRef :=
                        Some {| FieldPath := "metadata.namespace" |} |} |};
         {| EnvVar_Name := "POD_NAME"; Value := "";
            ValueFrom :=
              Some {| FieldRef :=
                        Some {| FieldPath := "metadata.name" |} |} |} ].
Proof.
  cbv zeta. rewrite mutatePod_InitContainers, initContainerFor_eq.
  repeat split. cbn. by rewrite volumeBindings_filter, map_map.
Qed.

(** ** The idempotent merge *)

Lemma mutatePod_twice (cfg : initcontainerConfig) (pod : Pod) :
  InitContainers (Spec (mutatePod cfg (mutatePod cfg pod)))
  = InitContainers (Spec (mutatePod cfg pod)).
Proof.
  rewrite (mutatePod_InitContainers cfg (mutatePod cfg pod)).
  rewrite initContainerFor_mutatePod.
  rewrite mutatePod_InitContainers.
  f_equal. unfold initcontainerNameFor at 1. cbn [othersOf].
  change (Name (Pod_ObjectMeta (mutatePod cfg pod)))
    with (Name (Pod_ObjectMeta pod)).
  fold (initcontainerNameFor cfg pod).
  by rewrite initContainerFor_name, String.eqb_refl.
Qed.


(** ** ParseSecurityContext *)

Lemma eqb_empty_false (s : string) : String.eqb s "" = false -> s <> "".
Proof. apply String.eqb_neq. Qed.

(** C7: a field of the security context is set only from a non-empty
    string; the call fails exactly when some non-empty string does not
    parse, never on an empty one; three empty strings give the empty
    context without error, and a malformed user string fails with no field
    set. *)
Theorem security_context_parsing (u g a : string) :
  let r := util.ParseSecurityContext u g a in
  (snd r = None
   <-> numberOrEmpty u && numberOrEmpty g && booleanOrEmpty a = true)
  /\ (is_Some (RunAsUser (fst r)) -> u <> "")
  /\ (is_Some (RunAsGroup (fst r)) -> g <> "")
  /\ (is_Some (AllowPrivilegeEscalation (fst r)) -> a <> "")
  /\ (snd r = None ->
      fst r
      = {| RunAsUser :=
             if String.eqb u "" then None else Some (fst (strconv.ParseInt u));
           RunAsGroup :=
             if String.eqb g "" then None else Some (fst (strconv.ParseInt g));
           AllowPrivilegeEscalation :=
             if String.eqb a "" then None
             else Some (fst (strconv.ParseBool a)) |})
  /\ util.ParseSecurityContext "" "" "" = (util.emptySecurityContext, None)
  /\ util.ParseSecurityContext "abc" "0" "true"
     = (util.emptySecurityContext,
        Some (WithStack
                (Errorf (util.quoted "Security context runAsUser "
                         +:+ " is not a number")
                   [ArgString "abc"]))).
Proof.
  cbv zeta. unfold util.ParseSecurityContext, numberOrEmpty, booleanOrEmpty.
  destruct (String.eqb u "") eqn:Eu;
    destruct (strconv.ParseInt u) as [vu [eu|]] eqn:Pu;
    destruct (String.eqb g "") eqn:Eg;
    destruct (strconv.ParseInt g) as [vg [eg|]] eqn:Pg;
    destruct (String.eqb a "") eqn:Ea;
    destruct (strconv.ParseBool a) as [va [ea|]] eqn:Pa;
    cbn;
    (split; [split; intros; done|]);
    repeat split;
    try done;
    try (intros [? ?]; done);
    try (intros _; by apply eqb_empty_false).
Qed.

(** ** ParseResourceRequirements *)

Lemma MustParse_0 :
  resource.MustParse "0"
  = Returned {| resource.i := resource.zeroAmount; resource.d := None;
                resource.s := ""; resource.format := resource.DecimalSI |}.
Proof. reflexivity. Qed.

(** The function once its four arguments have parsed. *)
Lemma ParseResourceRequirements_parsed
    (cr mr cl ml : string) (qcr qmr qcl qml : resource.Quantity) :
  resource.ParseQuantity cr = (qcr, None) ->
  resource.ParseQuantity mr = (qmr, None) ->
  resource.ParseQuantity cl = (qcl, None) ->
  resource.ParseQuantity ml = (qml, None) ->
  util.ParseResourceRequirements cr mr cl ml
  = if snd (util.exceeds qcr qcl) then
      (noResources,
       Some (WithStack
               (Errorf (util.quoted "CPU request " +:+
                        util.quoted " must be less than or equal to CPU limit ")
                  [ArgString cr; ArgString cl])))
    else if snd (util.exceeds qmr qml) then
      (noResources,
       Some (WithStack
               (Errorf (util.quoted "Memory request " +:+
                        util.quoted
                          " must be less than or equal to Memory limit ")
                  [ArgString mr; ArgString ml])))
    else
      ({| Limits :=
            util.setIfBounded ResourceMemory qml
              (util.setIfBounded ResourceCPU qcl ∅);
          Requests :=
            util.setIfBounded ResourceMemory (fst (util.exceeds qmr qml))
              (util.setIfBounded ResourceCPU (fst (util.exceeds qcr qcl)) ∅) |},
       None).
Proof.
  intros Hcr Hmr Hcl Hml. unfold util.ParseResourceRequirements.
  rewrite Hcr, Hmr, Hcl, Hml.
  destruct (util.exceeds qcr qcl) as [qcr' [|]]; [reflexivity|].
  destruct (util.exceeds qmr qml) as [qmr' [|]]; reflexivity.
Qed.

(** Whatever the arguments, an error comes with empty maps. *)
Lemma ParseResourceRequirements_error (cr mr cl ml : string) :
  snd (util.ParseResourceRequirements cr mr cl ml) <> None ->
  fst (util.ParseResourceRequirements cr mr cl ml) = noResources.
Proof.
  unfold util.ParseResourceRequirements.
  destruct (resource.ParseQuantity cr) as [qcr [e|]]; [reflexivity|].
  destruct (resource.ParseQuantity mr) as [qmr [e|]]; [reflexivity|].
  destruct (resource.ParseQuantity cl) as [qcl [e|]]; [reflexivity|].
  destruct (resource.ParseQuantity ml) as [qml [e|]]; [reflexivity|].
  destruct (util.exceeds qcr qcl) as [qcr' [|]]; [reflexivity|].
  destruct (util.exceeds qmr qml) as [qmr' [|]]; [reflexivity|].
  cbn. congruence.
Qed.

Lemma setIfBounded_lookup (name k : string) (q : resource.Quantity)
    (m : gmap string resource.Quantity) :
  util.setIfBounded name q m !! k
  = if bool_decide (name = k) && negb (resource.Quantity_eqb q util.unbounded)
    then Some q else m !! k.
Proof.
  unfold util.setIfBounded.
  destruct (resource.Quantity_eqb q util.unbounded); cbn.
  - by rewrite andb_false_r.
  - rewrite andb_true_r. case_bool_decide as Hk.
    + subst. apply lookup_insert_eq.
    + by apply lookup_insert_ne.
Qed.

Lemma exceeds_unbounded_limit (request limit : resource.Quantity) :
  resource.Quantity_eqb limit util.unbounded = true ->
  util.exceeds request limit = (request, false).
Proof. intros E. unfold util.exceeds. by rewrite E. Qed.

Lemma exceeds_bounded_limit (request limit : resource.Quantity) :
  resource.Quantity_eqb limit util.unbounded = false ->
  util.exceeds request limit
  = (fst (resource.Cmp request limit), 0 <? snd (resource.Cmp request limit)).
Proof.
  intros E. unfold util.exceeds. rewrite E. cbn.
  by destruct (resource.Cmp request limit).
Qed.

(** [Cmp] leaves a receiver in the int64 form alone when the argument is
    in the int64 form too. *)
Lemma Cmp_int64_receiver (q y : resource.Quantity) :
  resource.d q = None -> resource.d y = None ->
  fst (resource.Cmp q y) = q.
Proof. intros Hq Hy. unfold resource.Cmp. by rewrite Hq, Hy. Qed.


(** A CPU request above a bounded CPU limit is refused, with nothing in
    the maps. *)
Lemma cpu_request_above_limit
    (cr mr cl ml : string) (qcr qmr qcl qml : resource.Quantity) :
  resource.ParseQuantity cr = (qcr, None) ->
  resource.ParseQuantity mr = (qmr, None) ->
  resource.ParseQuantity cl = (qcl, None) ->
  resource.ParseQuantity ml = (qml, None) ->
  resource.Quantity_eqb qcl util.unbounded = false ->
  0 < snd (resource.Cmp qcr qcl) ->
  fst (util.ParseResourceRequirements cr mr cl ml) = noResources
  /\ snd (util.ParseResourceRequirements cr mr cl ml) <> None.
Proof.
  intros Hcr Hmr Hcl Hml Hb Hgt.
  rewrite (ParseResourceRequirements_parsed _ _ _ _ _ _ _ _ Hcr Hmr Hcl Hml).
  rewrite (exceeds_bounded_limit _ _ Hb). cbn.
  apply Z.ltb_lt in Hgt. by rewrite Hgt.
Qed.

(** The same for memory, whatever the CPU pair is, as long as the CPU
    check let the call through. *)
Lemma mem_request_above_limit
    (cr mr cl ml : string) (qcr qmr qcl qml : resource.Quantity) :
  resource.ParseQuantity cr = (qcr, None) ->
  resource.ParseQuantity mr = (qmr, None) ->
  resource.ParseQuantity cl = (qcl, None) ->
  resource.ParseQuantity ml = (qml, None) ->
  resource.Quantity_eqb qml util.unbounded = false ->
  0 < snd (resource.Cmp qmr qml) ->
  fst (util.ParseResourceRequirements cr mr cl ml) = noResources
  /\ snd (util.ParseResourceRequirements cr mr cl ml) <> None.
Proof.
  intros Hcr Hmr Hcl Hml Hb Hgt.
  rewrite (ParseResourceRequirements_parsed _ _ _ _ _ _ _ _ Hcr Hmr Hcl Hml).
  destruct (snd (util.exceeds qcr qcl)); [done|].
  rewrite (exceeds_bounded_limit _ _ Hb). cbn.
  apply Z.ltb_lt in Hgt. by rewrite Hgt.
Qed.

(** X19: a call that succeeds has request <= limit for every bounded
    limit, for cpu and for memory. *)
Lemma success_respects_limits
    (cr mr cl ml : string) (qcr qmr qcl qml : resource.Quantity) :
  resource.ParseQuantity cr = (qcr, None) ->
  resource.ParseQuantity mr = (qmr, None) ->
  resource.ParseQuantity cl = (qcl, None) ->
  resource.ParseQuantity ml = (qml, None) ->
  snd (util.ParseResourceRequirements cr mr cl ml) = None ->
  (resource.Quantity_eqb qcl util.unbounded = false ->
   snd (resource.Cmp qcr qcl) <= 0)
  /\ (resource.Quantity_eqb qml util.unbounded = false ->
      snd (resource.Cmp qmr qml) <= 0).
Proof.
  intros Hcr Hmr Hcl Hml.
  rewrite (ParseResourceRequirements_parsed _ _ _ _ _ _ _ _ Hcr Hmr Hcl Hml).
  destruct (snd (util.exceeds qcr qcl)) eqn:Ec; [done|].
  destruct (snd (util.exceeds qmr qml)) eqn:Em; [done|].
  intros _. split; intros Hb.
  - rewrite (exceeds_bounded_limit _ _ Hb) in Ec. cbn in Ec.
    by apply Z.ltb_ge in Ec.
  - rewrite (exceeds_bounded_limit _ _ Hb) in Em. cbn in Em.
    by apply Z.ltb_ge in Em.
Qed.

(** X20: a limit written as the literal 0 never reaches the Limits map,
    whatever the other three strings are and whether the call fails. *)
Lemma limit_0_omitted (cr mr other : string) :
  Limits (fst (util.ParseResourceRequirements cr mr "0" other))
    !! ResourceCPU = None
  /\ Limits (fst (util.ParseResourceRequirements cr mr other "0"))
       !! ResourceMemory = None.
Proof.
  split.
  - destruct (snd (util.ParseResourceRequirements cr mr "0" other)) eqn:E.
    { rewrite ParseResourceRequirements_error; [done|]. by rewrite E. }
    revert E. unfold util.ParseResourceRequirements.
    destruct (resource.ParseQuantity cr) as [qcr [e|]]; [done|].
    destruct (resource.ParseQuantity mr) as [qmr [e|]]; [done|].
    change (resource.ParseQuantity "0") with (util.unbounded, @None error).
    destruct (resource.ParseQuantity other) as [qml [e|]]; [done|].
    destruct (util.exceeds qcr util.unbounded) as [qcr' [|]]; [done|].
    destruct (util.exceeds qmr qml) as [qmr' [|]]; [done|].
    intros _. cbn [fst Limits]. rewrite !setIfBounded_lookup. by vm_compute.
  - destruct (snd (util.ParseResourceRequirements cr mr other "0")) eqn:E.
    { rewrite ParseResourceRequirements_error; [done|]. by rewrite E. }
    revert E. unfold util.ParseResourceRequirements.
    destruct (resource.ParseQuantity cr) as [qcr [e|]]; [done|].
    destruct (resource.ParseQuantity mr) as [qmr [e|]]; [done|].
    destruct (resource.ParseQuantity other) as [qcl [e|]]; [done|].
    change (resource.ParseQuantity "0") with (util.unbounded, @None error).
    destruct (util.exceeds qcr qcl) as [qcr' [|]]; [done|].
    destruct (util.exceeds qmr util.unbounded) as [qmr' [|]]; [done|].
    intros _. cbn [fst Limits]. rewrite !setIfBounded_lookup. by vm_compute.
Qed.

(** A request written as the literal 0 is left out as well when its limit
    parsed into the int64 form. *)
Lemma request_0_omitted_int64 (mr cl ml : string) (qcl : resource.Quantity) :
  resource.ParseQuantity cl = (qcl, None) ->
  resource.d qcl = None ->
  Requests (fst (util.ParseResourceRequirements "0" mr cl ml))
    !! ResourceCPU = None.
Proof.
  intros Hcl Hd.
  destruct (snd (util.ParseResourceRequirements "0" mr cl ml)) eqn:E.
  { rewrite ParseResourceRequirements_error; [done|]. by rewrite E. }
  revert E. unfold util.ParseResourceRequirements.
  change (resource.ParseQuantity "0") with (util.unbounded, @None error).
  destruct (resource.ParseQuantity mr) as [qmr [e|]]; [done|].
  rewrite Hcl.
  destruct (resource.ParseQuantity ml) as [qml [e|]]; [done|].
  assert (Hex : fst (util.exceeds util.unbounded qcl) = util.unbounded).
  { unfold util.exceeds.
    destruct (resource.Quantity_eqb qcl util.unbounded); [done|].
    pose proof (Cmp_int64_receiver util.unbounded qcl eq_refl Hd) as Hc.
    cbv [negb].
    destruct (resource.Cmp util.unbounded qcl) as [q' c]. exact Hc. }
  destruct (util.exceeds util.unbounded qcl) as [qcr' [|]]; [done|].
  cbn in Hex. subst qcr'.
  destruct (util.exceeds qmr qml) as [qmr' [|]]; [done|].
  intros _. cbn [fst Requests]. rewrite !setIfBounded_lookup. by vm_compute.
Qed.

(** The two calls of the validation boundary. *)
Lemma validation_boundary :
  util.ParseResourceRequirements "200m" "100m" "100m" "100m"
  = (noResources,
     Some (WithStack
             (Errorf (util.quoted "CPU request " +:+
                      util.quoted " must be less than or equal to CPU limit ")
                [ArgString "200m"; ArgString "100m"])))
  /\ snd (util.ParseResourceRequirements "100m" "100m" "200m" "200m") = None
  /\ map fst (map_to_list
                (Requests (fst (util.ParseResourceRequirements
                                  "100m" "100m" "200m" "200m"))))
     = ["cpu"; "memory"]
  /\ map fst (map_to_list
                (Limits (fst (util.ParseResourceRequirements
                                "100m" "100m" "200m" "200m"))))
     = ["cpu"; "memory"].
Proof. repeat split; vm_compute; reflexivity. Qed.

(** C4, where the code departs from it: a memory request written as the
    literal 0 next to the limit 1.5Gi is not omitted.  The limit parses
    into the arbitrary-precision form, the comparison converts the request
    in place to that form, the converted request is no longer equal to the
    parse of 0, and it is stored in Requests as a zero quantity. *)
Theorem zero_request_kept_beside_decimal_limit :
  let r := util.ParseResourceRequirements "100m" "0" "200m" "1.5Gi" in
  snd r = None
  /\ Requests (fst r) !! ResourceMemory
     = Some {| resource.i := resource.zeroAmount;
               resource.d := Some {| resource.unscaled := 0;
                                     resource.dscale := 0 |};
               resource.s := "";
               resource.format := resource.DecimalSI |}.
Proof. split; vm_compute; reflexivity. Qed.

(** ** What counts as unbounded *)




(** ** The configuration resolver *)

(** The eight fields that the struct literal names come from the record
    as they are. *)
Lemma configFromData_verbatim (data : gmap string string) :
  let c := configFromData data in
  clusterID c = index data "clusterID"
  /\ kubeMoverPodNamePrefix c = index data "kubeMoverPodNamePrefix"
  /\ kubeMoverImage c = index data "kubeMoverImage"
  /\ serverAddr c = index data "serverAddr"
  /\ useTLS c = index data "useTLS"
  /\ runAsRoot c = index data "runAsRoot"
  /\ runAsGroup c = index data "runAsGroup"
  /\ allowPrivilegeEscalation c = index data "allowPrivilegeEscalation".
Proof.
  cbv zeta. unfold configFromData.
  destruct (String.eqb (index data "cpuRequest") "");
    destruct (String.eqb (index data "cpuLimit") "");
    destruct (String.eqb (index data "memRequest") "");
    destruct (String.eqb (index data "memLimit") "");
    repeat split.
Qed.

(** Each resource string is the default when the record has no value for
    its key, and the empty string when the record has one. *)
Lemma configFromData_resources (data : gmap string string) :
  let c := configFromData data in
  cpuRequest c = (if String.eqb (index data "cpuRequest") "" then "100m" else "")
  /\ cpuLimit c = (if String.eqb (index data "cpuLimit") "" then "128Mi" else "")
  /\ memRequest c
     = (if String.eqb (index data "memRequest") "" then "100m" else "")
  /\ memLimit c = (if String.eqb (index data "memLimit") "" then "128Mi" else "").
Proof.
  cbv zeta. unfold configFromData.
  destruct (String.eqb (index data "cpuRequest") "");
    destruct (String.eqb (index data "cpuLimit") "");
    destruct (String.eqb (index data "memRequest") "");
    destruct (String.eqb (index data "memLimit") "");
    repeat split.
Qed.

(** C5, where the code departs from it: a record that has cpuLimit and
    lacks cpuRequest gets the default for cpuRequest, but its cpuLimit is
    not taken from the record: the field is left empty. *)
Theorem present_resource_value_dropped :
  let data : gmap string string := {[ "cpuLimit" := "500m" ]} in
  index data "cpuRequest" = ""
  /\ index data "cpuLimit" = "500m"
  /\ cpuRequest (configFromData data) = "100m"
  /\ cpuLimit (configFromData data) = ""
  /\ newInitcontainerConfig
       (clusterWith [{| ConfigMap_Name := "kubemover-config"; Data := data |}])
     = Returned (Some (configFromData data), None).
Proof. repeat split; vm_compute; reflexivity. Qed.

(** *** GetPluginConfig *)

Lemma foldl_names (l : list ConfigMap) (acc : list string) :
  foldl (fun items item => items ++ [ConfigMap_Name item]) acc l
  = acc ++ map ConfigMap_Name l.
Proof.
  revert acc. induction l as [|x l IH]; intros acc; cbn.
  - by rewrite app_nil_r.
  - by rewrite IH, <- app_assoc.
Qed.

(** What [GetPluginConfig] answers, by the answer of the cluster. *)
Lemma GetPluginConfig_cases (kind name : string)
    (client : util.ConfigMapInterface) :
  util.GetPluginConfig kind name client
  = let answer := client {| util.LabelSelector := selectorOf kind name |} in
    match snd answer with
    | Some err => (None, Some (WithStack err))
    | None =>
        match fst answer with
        | [] => (None, None)
        | [config] => (Some config, None)
        | list =>
            (None,
             Some (Errorf
                     "found more than one ConfigMap matching label selector %q: %v"
                     [ArgString (selectorOf kind name);
                      ArgStrings (map ConfigMap_Name list)]))
        end
    end.
Proof.
  unfold util.GetPluginConfig, selectorOf. cbv zeta.
  destruct (client _) as [list [err|]]; [reflexivity|].
  destruct list as [|c1 [|c2 rest]]; try reflexivity.
  cbn -[foldl]. by rewrite foldl_names.
Qed.

(** A failing cluster query reaches the caller of [newInitcontainerConfig]
    with no configuration beside it. *)
Lemma query_failure_propagated (e : error) :
  newInitcontainerConfig (clusterFailing e)
  = Returned (None, Some (WithStack e)).
Proof.
  reflexivity.
Qed.

(** C8, where the code departs from it: with no matching record
    [GetPluginConfig] answers nil and no error, and its caller then reads
    the data of the nil record, which panics; it does not go on with a
    default-only configuration. *)
Theorem no_record_panics :
  util.GetPluginConfig PluginKindRestoreItemAction RestorePodActionPluginName
    (fun _ => ([], None))
  = (None, None)
  /\ newInitcontainerConfig (clusterWith []) = Panicked nilDereference
  /\ snd (Execute (clusterWith [])
            {| Item := PodDocument webPod; Restore_ := offloadRestore |})
     = Panicked nilDereference.
Proof. repeat split; vm_compute; reflexivity. Qed.

(** ** Execute *)

Section ExecuteProperties.

Context {U : Type} `{Unstructured U}.

(** [Execute] behind an open gate, for an item with object metadata. *)
Lemma Execute_gate_open (env : util.Ambient)
    (input : RestoreItemActionExecuteInput U) :
  gateOpen (Restore_ input) = true ->
  Accessor (Item input) = None ->
  Execute env input
  = (tagged (Item input),
     match FromUnstructured (tagged (Item input)) with
     | (_, Some err) =>
         Returned (None,
                   Some (Wrap err "Unable to convert unstructured item to pod"))
     | (pod, None) =>
         match newInitcontainerConfig env with
         | Panicked reason => Panicked reason
         | Returned (None, _) => Panicked nilDereference
         | Returned (Some cfg, _) =>
             match ToUnstructured (mutatePod cfg pod) with
             | (_, Some err) =>
                 Returned
                   (None,
                    Some (Wrap err
                            "unable to convert pod to runtime.Unstructured"))
             | (res, None) =>
                 Returned (Some (NewRestoreItemActionExecuteOutput res), None)
             end
         end
     end).
Proof.
  unfold gateOpen, Execute, tagged. intros Hgate Hacc.
  destruct (Restore_Annotations (Restore_ input)) as [m|]; [|done].
  destruct (m !! "cloudcasa-restore-from-offload") as [v|] eqn:Hm.
  2:{ apply bool_decide_eq_true in Hgate. by destruct Hgate. }
  rewrite Hacc.
  destruct (FromUnstructured _) as [pod [err|]]; [reflexivity|].
  destruct (newInitcontainerConfig env) as [[[cfg|] e]|reason];
    try reflexivity.
  by destruct (ToUnstructured _) as [res [err|]].
Qed.

(** X10: every error [Execute] returns is the accessor's or a wrapped
    codec error: none comes from the configuration resolver or the two
    parsers. *)
Lemma Execute_errors (env : util.Ambient)
    (input : RestoreItemActionExecuteInput U)
    (out : option (RestoreItemActionExecuteOutput U)) (e : error) :
  snd (Execute env input) = Returned (out, Some e) ->
  Accessor (Item input) = Some e
  \/ (exists c, e = Wrap c "Unable to convert unstructured item to pod")
  \/ (exists c, e = Wrap c "unable to convert pod to runtime.Unstructured").
Proof.
  unfold Execute.
  destruct (Restore_Annotations (Restore_ input)) as [m|]; [|done].
  destruct (m !! "cloudcasa-restore-from-offload"); [|done].
  destruct (Accessor (Item input)) as [ea|] eqn:Hacc.
  { cbn. intros [= _ ->]. by left. }
  destruct (FromUnstructured _) as [pod [err|]].
  { cbn. intros [= _ <-]. right; left. by eexists. }
  destruct (newInitcontainerConfig env) as [[[cfg|] e']|reason]; try done.
  destruct (ToUnstructured _) as [res [err|]]; [|done].
  cbn. intros [= _ <-]. right; right. by eexists.
Qed.

(** C3 as amended: with the gate closed the item passes through exactly
    as it came, so its init-container list and its annotations are those
    of the input (no presence annotation is added), and no error is
    returned. *)
Theorem gate_closed_passes_through (env : util.Ambient)
    (input : RestoreItemActionExecuteInput U) :
  gateOpen (Restore_ input) = false ->
  Execute env input
  = (Item input,
     Returned (Some (NewRestoreItemActionExecuteOutput (Item input)), None)).
Proof.
  unfold gateOpen, Execute. intros Hgate.
  destruct (Restore_Annotations (Restore_ input)) as [m|]; [|done].
  destruct (m !! "cloudcasa-restore-from-offload") as [v|] eqn:Hm; [|done].
  apply bool_decide_eq_false in Hgate. destruct Hgate. by eexists.
Qed.

(** X11: a second run on the item the first run returned, for a codec that
    decodes what it encoded: the Pod it encodes has the init-container
    list of the first run. *)
Lemma Execute_twice (env : util.Ambient)
    (input : RestoreItemActionExecuteInput U)
    (pod : Pod) (cfg : initcontainerConfig) (e : option error) (res : U) :
  gateOpen (Restore_ input) = true ->
  Accessor (Item input) = None ->
  FromUnstructured (tagged (Item input)) = (pod, None) ->
  newInitcontainerConfig env = Returned (Some cfg, e) ->
  ToUnstructured (mutatePod cfg pod) = (res, None) ->
  Accessor res = None ->
  FromUnstructured (tagged res) = (mutatePod cfg pod, None) ->
  snd (Execute env input)
  = Returned (Some (NewRestoreItemActionExecuteOutput res), None)
  /\ exists pod2,
       snd (Execute env {| Item := res; Restore_ := Restore_ input |})
       = match ToUnstructured pod2 with
         | (_, Some err) =>
             Returned
               (None,
                Some (Wrap err "unable to convert pod to runtime.Unstructured"))
         | (res2, None) =>
             Returned (Some (NewRestoreItemActionExecuteOutput res2), None)
         end
       /\ InitContainers (Spec pod2)
          = InitContainers (Spec (mutatePod cfg pod)).
Proof.
  intros Hgate Hacc Hfrom Hcfg Hto Hacc2 Hfrom2. split.
  - rewrite (Execute_gate_open env input Hgate Hacc). cbn [snd].
    by rewrite Hfrom, Hcfg, Hto.
  - exists (mutatePod cfg (mutatePod cfg pod)). split.
    + rewrite (Execute_gate_open env {| Item := res |} Hgate Hacc2).
      cbn [snd Item]. by rewrite Hfrom2, Hcfg.
    + apply mutatePod_twice.
Qed.

End ExecuteProperties.

(** The two runs on the sample Pod. *)
Example Execute_twice_webPod :
  let env := clusterWith [moverConfig []] in
  match snd (Execute env {| Item := PodDocument webPod;
                            Restore_ := offloadRestore |}) with
  | Returned (Some {| UpdatedItem := Some once |}, None) =>
      snd (Execute env {| Item := once; Restore_ := offloadRestore |})
      = Returned (Some {| UpdatedItem := Some once |}, None)
  | _ => False
  end.
Proof. vm_compute. reflexivity. Qed.

Lemma gate_closed_passes_through_witness :
  gateOpen plainRestore = false
  /\ Execute (clusterWith [moverConfig []])
       {| Item := PodDocument webPod; Restore_ := plainRestore |}
     = (PodDocument webPod,
        Returned
          (Some (NewRestoreItemActionExecuteOutput (PodDocument webPod)),
           None)).
Proof.
  split; [reflexivity|].
  exact (gate_closed_passes_through (clusterWith [moverConfig []])
           {| Item := PodDocument webPod; Restore_ := plainRestore |}
           eq_refl).
Defined.

(** C3 as stated fails: a restore without annotations, and one whose
    annotations lack the marker, hand the Pod back without the presence
    annotation. *)
Lemma gate_closed_sets_no_annotation :
  snd (Execute (clusterWith [moverConfig []])
         {| Item := PodDocument webPod; Restore_ := plainRestore |})
  = Returned (Some {| UpdatedItem := Some (PodDocument webPod) |}, None)
  /\ snd (Execute (clusterWith [moverConfig []])
            {| Item := PodDocument webPod;
               Restore_ :=
                 {| Restore_Annotations := Some {[ "owner" := "ops" ]} |} |})
     = Returned (Some {| UpdatedItem := Some (PodDocument webPod) |}, None)
  /\ GetAnnotations (PodDocument webPod) ≫= (.!! presenceAnnotation) = None.
Proof. repeat split; vm_compute; reflexivity. Qed.

(** With the gate open the same Pod does get the annotation. *)
Lemma gate_open_sets_annotation :
  match snd (Execute (clusterWith [moverConfig []])
               {| Item := PodDocument webPod; Restore_ := offloadRestore |})
  with
  | Returned (Some {| UpdatedItem := Some item |}, None) =>
      GetAnnotations item ≫= (.!! presenceAnnotation) = Some "1"
  | _ => False
  end.
Proof. vm_compute. reflexivity. Qed.

(** C1, where the code departs from it.  The errors of the configuration
    resolver and of the two parsers are assigned and never read:
    - a runAsRoot that is no number makes [ParseSecurityContext] fail, and
      [Execute] returns the mutated Pod and no error;
    - a record that has cpuRequest makes [ParseResourceRequirements] fail
      (the value is dropped, the empty string does not parse), and
      [Execute] returns the mutated Pod, its container without resources,
      and no error;
    - a failing cluster query makes [newInitcontainerConfig] return its
      error and no configuration, and [Execute] panics on the nil
      configuration instead of returning that error. *)
Theorem resolver_and_parser_errors_not_surfaced :
  let input :=
    {| Item := PodDocument webPod; Restore_ := offloadRestore |} in
  let tag := set_Annotations {[ presenceAnnotation := "1" ]} webPod in
  let cfg1 := configFromData (Data (moverConfig [("runAsRoot", "abc")])) in
  let cfg2 := configFromData (Data (moverConfig [("cpuRequest", "250m")])) in
  (is_Some (snd (util.ParseSecurityContext (runAsRoot cfg1) (runAsGroup cfg1)
                   (allowPrivilegeEscalation cfg1)))
   /\ snd (Execute (clusterWith [moverConfig [("runAsRoot", "abc")]]) input)
      = Returned
          (Some {| UpdatedItem := Some (PodDocument (mutatePod cfg1 tag)) |},
           None)
   /\ length (InitContainers (Spec (mutatePod cfg1 tag))) = 1%nat)
  /\ (is_Some (snd (util.ParseResourceRequirements (cpuRequest cfg2)
                      (memRequest cfg2) (cpuLimit cfg2) (memLimit cfg2)))
      /\ snd (Execute (clusterWith [moverConfig [("cpuRequest", "250m")]])
                input)
         = Returned
             (Some {| UpdatedItem := Some (PodDocument (mutatePod cfg2 tag)) |},
              None)
      /\ Resources <$> head (InitContainers (Spec (mutatePod cfg2 tag)))
         = Some noResources)
  /\ (newInitcontainerConfig (clusterFailing (External "connection refused"))
      = Returned (None, Some (WithStack (External "connection refused")))
      /\ snd (Execute (clusterFailing (External "connection refused")) input)
         = Panicked nilDereference).
Proof.
  cbv zeta.
  repeat match goal with |- _ /\ _ => split end;
    try (vm_compute; reflexivity); vm_compute; by eexists.
Qed.

(** * Further properties *)

(** ** Contains *)

(** X1: [Contains] answers true exactly for the keys that occur in the
    slice, so on a concatenation it is the disjunction of the answers. *)
Theorem Contains_spec (slice more : list string) (key : string) :
  (util_helpers.Contains slice key = true <-> In key slice)
  /\ util_helpers.Contains (slice ++ more) key
     = util_helpers.Contains slice key || util_helpers.Contains more key.
Proof.
  split.
  - induction slice as [|i slice IH]; cbn.
    + split; [discriminate|tauto].
    + destruct (String.eqb i key) eqn:E.
      * apply String.eqb_eq in E. split; auto.
      * apply String.eqb_neq in E. rewrite IH. split; [auto|].
        intros [Hi|Hin]; [contradiction|assumption].
  - induction slice as [|i slice IH]; cbn; [reflexivity|].
    destruct (String.eqb i key); [reflexivity|exact IH].
Qed.

(** ** The volume of a Pod that uses a claim *)

Lemma firstVolumeUsing_Some (pvcName name : string) (volumes : list Volume) :
  util_helpers.firstVolumeUsing pvcName volumes = Some name ->
  exists before v after,
    volumes = before ++ v :: after
    /\ Forall (fun w => util_helpers.usesClaim pvcName w = false) before
    /\ util_helpers.usesClaim pvcName v = true
    /\ name = Volume_Name v.
Proof.
  induction volumes as [|w volumes IH]; cbn; [discriminate|].
  destruct (util_helpers.usesClaim pvcName w) eqn:E.
  - intros [= <-]. exists [], w, volumes. by repeat split.
  - intros Hn. destruct (IH Hn) as (before & v & after & -> & Hb & Hv & ->).
    exists (w :: before), v, after. repeat split; auto.
Qed.

Lemma firstVolumeUsing_None (pvcName : string) (volumes : list Volume) :
  util_helpers.firstVolumeUsing pvcName volumes = None <->
  Forall (fun w => util_helpers.usesClaim pvcName w = false) volumes.
Proof.
  induction volumes as [|w volumes IH]; cbn.
  - split; [constructor|reflexivity].
  - destruct (util_helpers.usesClaim pvcName w) eqn:E.
    + split; [discriminate|]. intros HF. inversion HF; congruence.
    + rewrite IH. split; [by constructor|]. intros HF. by inversion HF.
Qed.

(** X2: [GetPodVolumeNameForPVC] returns the name of the first volume, in
    declaration order, whose claim is the given one; when no volume uses
    the claim it returns the empty name and an error that carries the
    Pod's namespace and name and the claim name. *)
Theorem GetPodVolumeNameForPVC_first (pod : Pod) (pvcName : string) :
  match util_helpers.GetPodVolumeNameForPVC pod pvcName with
  | (name, None) =>
      exists before v after,
        Volumes (Spec pod) = before ++ v :: after
        /\ Forall (fun w => util_helpers.usesClaim pvcName w = false) before
        /\ PersistentVolumeClaim v <> None
        /\ claimOf v = pvcName
        /\ name = Volume_Name v
  | (name, Some err) =>
      Forall (fun w => util_helpers.usesClaim pvcName w = false)
        (Volumes (Spec pod))
      /\ name = ""
      /\ err = Errorf "Pod %s/%s does not use PVC %s/%s"
                 [ArgString (Namespace (Pod_ObjectMeta pod));
                  ArgString (Name (Pod_ObjectMeta pod));
                  ArgString (Namespace (Pod_ObjectMeta pod));
                  ArgString pvcName]
  end.
Proof.
  unfold util_helpers.GetPodVolumeNameForPVC.
  destruct (util_helpers.firstVolumeUsing pvcName (Volumes (Spec pod)))
    as [name|] eqn:E.
  - destruct (firstVolumeUsing_Some _ _ _ E)
      as (before & v & after & Hv & Hb & Hu & ->).
    exists before, v, after. repeat split; auto.
    + unfold util_helpers.usesClaim in Hu.
      destruct (PersistentVolumeClaim v); [discriminate|discriminate].
    + unfold util_helpers.usesClaim in Hu. unfold claimOf.
      destruct (PersistentVolumeClaim v); [|discriminate].
      by apply String.eqb_eq.
  - apply firstVolumeUsing_None in E. by repeat split.
Qed.

(** ** The Pods that use a claim *)

Lemma inner_loop_replicate (pvcName : string) (p : Pod)
    (volumes : list Volume) (acc : list Pod) :
  foldl (fun acc v =>
           if util_helpers.usesClaim pvcName v then acc ++ [p] else acc)
    acc volumes
  = acc ++ replicate
             (length (List.filter (util_helpers.usesClaim pvcName) volumes)) p.
Proof.
  revert acc. induction volumes as [|v volumes IH]; intros acc; cbn.
  - by rewrite app_nil_r.
  - rewrite IH. destruct (util_helpers.usesClaim pvcName v); cbn.
    + by rewrite <- app_assoc.
    + reflexivity.
Qed.

Lemma outer_loop_flat_map (pvcName : string) (pods acc : list Pod) :
  foldl
    (fun acc p =>
       foldl
         (fun acc v =>
            if util_helpers.usesClaim pvcName v then acc ++ [p] else acc)
         acc (Volumes (Spec p)))
    acc pods
  = acc ++ flat_map (fun p => replicate (usesOf pvcName p) p) pods.
Proof.
  revert acc. induction pods as [|p pods IH]; intros acc; cbn.
  - by rewrite app_nil_r.
  - rewrite IH, inner_loop_replicate, <- app_assoc. reflexivity.
Qed.

Lemma GetPodsUsingPVC_eq (pvcNamespace pvcName : string)
    (corev1 : util_helpers.PodsGetter) :
  util_helpers.GetPodsUsingPVC pvcNamespace pvcName corev1
  = match corev1 pvcNamespace {| util.LabelSelector := "" |} with
    | (_, Some err) => (None, Some err)
    | (podList, None) =>
        (Some (flat_map (fun p => replicate (usesOf pvcName p) p) podList),
         None)
    end.
Proof.
  unfold util_helpers.GetPodsUsingPVC.
  destruct (corev1 _ _) as [podList [err|]]; [reflexivity|].
  by rewrite outer_loop_flat_map.
Qed.

(** X3: [GetPodsUsingPVC] hands the error of the list request back as it
    is, with a nil slice; otherwise it lists the Pods of the namespace in
    the order of the answer, each Pod once per volume of it that uses the
    claim (a Pod that mounts the claim through two volumes is listed
    twice, a Pod that does not use it is not listed). *)
Theorem GetPodsUsingPVC_listing (pvcNamespace pvcName : string)
    (corev1 : util_helpers.PodsGetter) :
  match corev1 pvcNamespace {| util.LabelSelector := "" |} with
  | (_, Some err) =>
      util_helpers.GetPodsUsingPVC pvcNamespace pvcName corev1
      = (None, Some err)
  | (podList, None) =>
      exists pods,
        util_helpers.GetPodsUsingPVC pvcNamespace pvcName corev1
        = (Some pods, None)
        /\ pods = flat_map (fun p => replicate (usesOf pvcName p) p) podList
        /\ forall p, In p pods <-> In p podList /\ (0 < usesOf pvcName p)%nat
  end.
Proof.
  rewrite GetPodsUsingPVC_eq.
  destruct (corev1 _ _) as [podList [err|]]; [reflexivity|].
  eexists. split; [reflexivity|]. split; [reflexivity|].
  intros p. rewrite in_flat_map. split.
  - intros (q & Hq & Hin).
    destruct (usesOf pvcName q) as [|n] eqn:En; [contradiction|].
    assert (p = q) as ->.
    { rewrite <- list_elem_of_In in Hin.
      by apply elem_of_replicate in Hin as [? _]. }
    split; [assumption|]. rewrite En. lia.
  - intros [Hin Hpos]. exists p. split; [assumption|].
    destruct (usesOf pvcName p) as [|n]; [lia|]. cbn. by left.
Qed.

(** X4: every Pod that [GetPodsUsingPVC] lists has a volume name for the
    claim: [GetPodVolumeNameForPVC] on it does not fail. *)
Theorem listed_pods_have_volume_name (pvcNamespace pvcName : string)
    (corev1 : util_helpers.PodsGetter) (pods : list Pod) :
  util_helpers.GetPodsUsingPVC pvcNamespace pvcName corev1 = (Some pods, None) ->
  Forall (fun p => snd (util_helpers.GetPodVolumeNameForPVC p pvcName) = None)
    pods.
Proof.
  rewrite GetPodsUsingPVC_eq.
  destruct (corev1 _ _) as [podList [err|]]; [discriminate|].
  intros [= <-]. apply Forall_forall. intros p Hin.
  apply list_elem_of_In in Hin.
  apply in_flat_map in Hin as (q & _ & Hin).
  rewrite <- list_elem_of_In in Hin.
  apply elem_of_replicate in Hin as [-> Hn].
  unfold util_helpers.GetPodVolumeNameForPVC.
  destruct (util_helpers.firstVolumeUsing pvcName (Volumes (Spec q)))
    eqn:E; [reflexivity|].
  apply firstVolumeUsing_None in E. exfalso. apply Hn.
  unfold usesOf. clear Hn.
  induction E as [|w ws Hw _ IH]; cbn; [reflexivity|]. by rewrite Hw.
Qed.

Lemma listed_pods_have_volume_name_witness :
  Forall (fun p => snd (util_helpers.GetPodVolumeNameForPVC p "data") = None)
    [webPod].
Proof.
  exact (listed_pods_have_volume_name "shop" "data"
           (fun _ _ => ([webPod; emptyPod], None)) [webPod] eq_refl).
Defined.

(** ** The volume bound to a claim *)

(** X5: [GetPVForPVC] hands out a volume only for a claim that names a
    volume and is in phase Bound, and the volume is the answer of the
    cluster for that name, with no error beside it. *)
Theorem GetPVForPVC_bound_only (pvc : util_helpers.Claim)
    (corev1 : util_helpers.PersistentVolumesGetter)
    (pv : util_helpers.PersistentVolume) :
  fst (util_helpers.GetPVForPVC pvc corev1) = Some pv ->
  util_helpers.VolumeName pvc <> ""
  /\ util_helpers.Phase pvc = util_helpers.ClaimBound
  /\ corev1 (util_helpers.VolumeName pvc) = (Some pv, None)
  /\ snd (util_helpers.GetPVForPVC pvc corev1) = None.
Proof.
  unfold util_helpers.GetPVForPVC.
  destruct (String.eqb (util_helpers.VolumeName pvc) "") eqn:Ev;
    [discriminate|].
  destruct (String.eqb (util_helpers.Phase pvc) util_helpers.ClaimBound)
    eqn:Ep; cbn; [|discriminate].
  destruct (corev1 (util_helpers.VolumeName pvc)) as [r [err|]];
    cbn; [discriminate|].
  intros ->. repeat split.
  - by apply String.eqb_neq.
  - by apply String.eqb_eq.
Qed.

Lemma GetPVForPVC_bound_only_witness :
  util_helpers.Phase
    {| util_helpers.Claim_Namespace := "shop"; util_helpers.Claim_Name := "data";
       util_helpers.VolumeName := "pv-7"; util_helpers.Phase := "Bound" |}
  = util_helpers.ClaimBound.
Proof.
  exact (proj1 (proj2
    (GetPVForPVC_bound_only
       {| util_helpers.Claim_Namespace := "shop";
          util_helpers.Claim_Name := "data";
          util_helpers.VolumeName := "pv-7"; util_helpers.Phase := "Bound" |}
       (fun name => (Some {| util_helpers.PV_Name := name |}, None))
       {| util_helpers.PV_Name := "pv-7" |} eq_refl))).
Defined.

(** X6: for a claim without a volume name, or in another phase than
    Bound, [GetPVForPVC] fails without asking the cluster: the result is
    an error, no volume, and the same whatever the cluster would
    answer. *)
Theorem GetPVForPVC_unbound_no_query (pvc : util_helpers.Claim)
    (corev1 corev1' : util_helpers.PersistentVolumesGetter) :
  util_helpers.VolumeName pvc = ""
  \/ util_helpers.Phase pvc <> util_helpers.ClaimBound ->
  util_helpers.GetPVForPVC pvc corev1 = util_helpers.GetPVForPVC pvc corev1'
  /\ fst (util_helpers.GetPVForPVC pvc corev1) = None
  /\ is_Some (snd (util_helpers.GetPVForPVC pvc corev1)).
Proof.
  unfold util_helpers.GetPVForPVC. intros Hun.
  destruct (String.eqb (util_helpers.VolumeName pvc) "") eqn:Ev.
  { repeat split. by eexists. }
  destruct (String.eqb (util_helpers.Phase pvc) util_helpers.ClaimBound)
    eqn:Ep; cbn.
  2:{ repeat split. by eexists. }
  apply String.eqb_neq in Ev. apply String.eqb_eq in Ep.
  destruct Hun; contradiction.
Qed.

Lemma GetPVForPVC_unbound_no_query_witness :
  fst (util_helpers.GetPVForPVC
         {| util_helpers.Claim_Namespace := "shop";
            util_helpers.Claim_Name := "data";
            util_helpers.VolumeName := "pv-7";
            util_helpers.Phase := "Pending" |}
         (fun name => (Some {| util_helpers.PV_Name := name |}, None)))
  = None.
Proof.
  refine (proj1 (proj2
    (GetPVForPVC_unbound_no_query
       {| util_helpers.Claim_Namespace := "shop";
          util_helpers.Claim_Name := "data";
          util_helpers.VolumeName := "pv-7";
          util_helpers.Phase := "Pending" |}
       (fun name => (Some {| util_helpers.PV_Name := name |}, None))
       (fun name => (None, Some (External "not reached")))
       (or_intror _)))).
  cbv. discriminate.
Defined.

(** ** Annotations and labels *)

Lemma fold_insert_union (f : string -> string)
    (vals old : gmap string string) :
  map_fold (fun k v (m : gmap string string) => <[k := f v]> m) old vals
  = (f <$> vals) ∪ old.
Proof.
  apply (map_fold_weak_ind
           (fun (r : gmap string string) (m : gmap string string) =>
              r = (f <$> m) ∪ old)).
  - by rewrite fmap_empty, (left_id_L ∅ (∪)).
  - intros k v m r _ ->. by rewrite fmap_insert, insert_union_l.
Qed.

Lemma AddAnnotations_eq (o : metav1.ObjectMeta) (vals : gmap string string) :
  util_helpers.AddAnnotations o vals
  = {| metav1.Annotations := Some (vals ∪ annotationsOf o);
       metav1.Labels := metav1.Labels o |}.
Proof.
  unfold util_helpers.AddAnnotations, annotationsOf. f_equal. f_equal.
  etrans; [exact (fold_insert_union id vals _)|].
  rewrite map_fmap_id. by destruct (metav1.Annotations o).
Qed.

Lemma AddLabels_eq (GetValidName : string -> string)
    (o : metav1.ObjectMeta) (vals : gmap string string) :
  util_helpers.AddLabels GetValidName o vals
  = {| metav1.Annotations := metav1.Annotations o;
       metav1.Labels := Some ((GetValidName <$> vals) ∪ labelsOf o) |}.
Proof.
  unfold util_helpers.AddLabels, labelsOf. f_equal. f_equal.
  rewrite fold_insert_union. by destruct (metav1.Labels o).
Qed.

(** X7: after [AddAnnotations] the object has an annotation map (also
    when it had none and nothing was supplied); every supplied key has the
    supplied value, every other key has the value it had, and the labels
    are as before. *)
Theorem AddAnnotations_lookup (o : metav1.ObjectMeta)
    (vals : gmap string string) (k : string) :
  is_Some (metav1.Annotations (util_helpers.AddAnnotations o vals))
  /\ annotationsOf (util_helpers.AddAnnotations o vals) !! k
     = match vals !! k with
       | Some v => Some v
       | None => annotationsOf o !! k
       end
  /\ metav1.Labels (util_helpers.AddAnnotations o vals) = metav1.Labels o.
Proof.
  rewrite AddAnnotations_eq. split; [by eexists|]. split; [|reflexivity].
  unfold annotationsOf at 1. cbn. rewrite lookup_union.
  destruct (vals !! k), (annotationsOf o !! k); reflexivity.
Qed.

(** X8: two calls of [AddAnnotations] in a row amount to one call with
    the second supply laid over the first, and repeating a call changes
    nothing. *)
Theorem AddAnnotations_compose (o : metav1.ObjectMeta)
    (first second : gmap string string) :
  util_helpers.AddAnnotations (util_helpers.AddAnnotations o first) second
  = util_helpers.AddAnnotations o (second ∪ first)
  /\ util_helpers.AddAnnotations (util_helpers.AddAnnotations o first) first
     = util_helpers.AddAnnotations o first.
Proof.
  rewrite !AddAnnotations_eq. unfold annotationsOf at 1 3. cbn. split.
  - by rewrite (assoc_L (∪)).
  - by rewrite (assoc_L (∪)), (idemp_L (∪)).
Qed.

(** X9: after [AddLabels] every supplied key carries the valid name of
    the supplied value, every other key the value it had, and the
    annotations are as before; a call of [AddLabels] and a call of
    [AddAnnotations] can be swapped. *)
Theorem AddLabels_lookup (GetValidName : string -> string)
    (o : metav1.ObjectMeta) (vals annotations : gmap string string)
    (k : string) :
  labelsOf (util_helpers.AddLabels GetValidName o vals) !! k
  = match vals !! k with
    | Some v => Some (GetValidName v)
    | None => labelsOf o !! k
    end
  /\ metav1.Annotations (util_helpers.AddLabels GetValidName o vals)
     = metav1.Annotations o
  /\ util_helpers.AddLabels GetValidName
       (util_helpers.AddAnnotations o annotations) vals
     = util_helpers.AddAnnotations
         (util_helpers.AddLabels GetValidName o vals) annotations.
Proof.
  rewrite !AddLabels_eq, !AddAnnotations_eq. repeat split.
  unfold labelsOf at 1. cbn. rewrite lookup_union, lookup_fmap.
  destruct (vals !! k), (labelsOf o !! k); reflexivity.
Qed.

(** ** Execute, further *)

(** [Execute_errors] on a document that does not decode. *)
Lemma Execute_errors_witness :
  Accessor strayDocument
  = Some (Wrap (External "cannot convert the document to a Pod")
            "Unable to convert unstructured item to pod")
  \/ (exists c,
        Wrap (External "cannot convert the document to a Pod")
          "Unable to convert unstructured item to pod"
        = Wrap c "Unable to convert unstructured item to pod")
  \/ (exists c,
        Wrap (External "cannot convert the document to a Pod")
          "Unable to convert unstructured item to pod"
        = Wrap c "unable to convert pod to runtime.Unstructured").
Proof.
  exact (Execute_errors (clusterWith [moverConfig []])
           {| Item := strayDocument; Restore_ := offloadRestore |}
           None _ eq_refl).
Defined.

(** [Execute_twice] on the sample Pod. *)
Lemma Execute_twice_witness :
  snd (Execute (clusterWith [moverConfig []])
         {| Item := PodDocument webPod; Restore_ := offloadRestore |})
  = Returned
      (Some (NewRestoreItemActionExecuteOutput
               (PodDocument
                  (mutatePod (configFromData (Data (moverConfig [])))
                     (set_Annotations {[ presenceAnnotation := "1" ]}
                        webPod)))),
       None).
Proof.
  refine (proj1
    (Execute_twice (clusterWith [moverConfig []])
       {| Item := PodDocument webPod; Restore_ := offloadRestore |}
       (set_Annotations {[ presenceAnnotation := "1" ]} webPod)
       (configFromData (Data (moverConfig []))) None
       (PodDocument
          (mutatePod (configFromData (Data (moverConfig [])))
             (set_Annotations {[ presenceAnnotation := "1" ]} webPod)))
       _ _ _ _ _ _ _)); vm_compute; reflexivity.
Defined.

Section ExecuteFurther.

Context {U : Type} `{Unstructured U}.

(** X12: behind an open gate, for an item that decodes, [Execute] panics
    whenever the resolver hands back no configuration, be it with an
    error (no client, a failing query, several records) or by panicking
    itself (no record): none of these ends in a returned error. *)
Theorem Execute_panics_without_configuration (env : util.Ambient)
    (input : RestoreItemActionExecuteInput U) :
  gateOpen (Restore_ input) = true ->
  Accessor (Item input) = None ->
  snd (FromUnstructured (tagged (Item input))) = None ->
  (forall cfg e, newInitcontainerConfig env <> Returned (Some cfg, e)) ->
  exists reason, snd (Execute env input) = Panicked reason.
Proof.
  intros Hgate Hacc Hfrom Hnone.
  rewrite (Execute_gate_open env input Hgate Hacc). cbn [snd].
  destruct (FromUnstructured (tagged (Item input))) as [pod [err|]];
    [discriminate|].
  destruct (newInitcontainerConfig env) as [[[cfg|] e]|reason].
  - by destruct (Hnone cfg e).
  - by eexists.
  - by eexists.
Qed.

(** X13: when the item does not decode, [Execute] returns no output and
    the converter's error, wrapped, whatever the cluster holds; the
    caller's item has by then been written: it carries the presence
    annotation. *)
Theorem Execute_decode_failure (env : util.Ambient)
    (input : RestoreItemActionExecuteInput U) (pod : Pod) (err : error) :
  gateOpen (Restore_ input) = true ->
  Accessor (Item input) = None ->
  FromUnstructured (tagged (Item input)) = (pod, Some err) ->
  Execute env input
  = (tagged (Item input),
     Returned
       (None, Some (Wrap err "Unable to convert unstructured item to pod"))).
Proof.
  intros Hgate Hacc Hfrom.
  rewrite (Execute_gate_open env input Hgate Hacc). by rewrite Hfrom.
Qed.

End ExecuteFurther.

Lemma Execute_panics_without_configuration_witness :
  exists reason,
    snd (Execute
           (clusterWith [moverConfig []; moverConfig [("useTLS", "false")]])
           {| Item := PodDocument webPod; Restore_ := offloadRestore |})
    = Panicked reason.
Proof.
  refine (Execute_panics_without_configuration
            (clusterWith [moverConfig []; moverConfig [("useTLS", "false")]])
            {| Item := PodDocument webPod; Restore_ := offloadRestore |}
            _ _ _ _); try (vm_compute; reflexivity).
  intros cfg e. vm_compute. discriminate.
Defined.

Lemma Execute_decode_failure_witness :
  Execute (clusterWith [])
    {| Item := strayDocument; Restore_ := offloadRestore |}
  = (OtherDocument "ConfigMap" (Some {[ presenceAnnotation := "1" ]}),
     Returned
       (None,
        Some (Wrap (External "cannot convert the document to a Pod")
                "Unable to convert unstructured item to pod"))).
Proof.
  exact (Execute_decode_failure (clusterWith [])
           {| Item := strayDocument; Restore_ := offloadRestore |}
           emptyPod (External "cannot convert the document to a Pod")
           eq_refl eq_refl eq_refl).
Defined.

(** ** The resolver, further *)

(** X14: [newInitcontainerConfig] returns a configuration only when the
    client could be built and the list request for the plugin's selector
    in the namespace cloudcasa-io answered with exactly one record; the
    configuration is then read off that record and no error comes with
    it. *)
Theorem newInitcontainerConfig_single_record (env : util.Ambient)
    (cfg : initcontainerConfig) (e : option error) :
  newInitcontainerConfig env = Returned (Some cfg, e) ->
  e = None
  /\ exists client config,
       util.GetClients env = (Some client, None)
       /\ configAnswer client = ([config], None)
       /\ cfg = configFromData (Data config).
Proof.
  unfold newInitcontainerConfig.
  destruct (util.GetClients env) as [[client|] [err|]]; try discriminate.
  rewrite GetPluginConfig_cases. cbv zeta.
  fold (configAnswer client).
  destruct (configAnswer client) as [list [err|]] eqn:Ha; cbn [fst snd];
    [discriminate|].
  destruct list as [|c1 [|c2 rest]]; try discriminate.
  intros [= <- <-]. split; [reflexivity|]. by exists client, c1.
Qed.

Lemma newInitcontainerConfig_single_record_witness :
  exists client config,
    util.GetClients (clusterWith [moverConfig []]) = (Some client, None)
    /\ configAnswer client = ([config], None)
    /\ configFromData (Data (moverConfig []))
       = configFromData (Data config).
Proof.
  exact (proj2 (newInitcontainerConfig_single_record
                  (clusterWith [moverConfig []])
                  (configFromData (Data (moverConfig []))) None eq_refl)).
Defined.

(** ** The injected container, further *)

(** X15: the resources of the injected container are all or nothing.
    For a record without any of the four resource keys they are the
    defaults (requests of 100m, limits of 128Mi, for cpu and memory); as
    soon as the record has a value for one of the keys, whatever the
    value, the container is built without requests and limits. *)
Theorem injected_resources_default_or_none (data : gmap string string)
    (pod : Pod) :
  Resources (initContainerFor (configFromData data) pod)
  = (if noResourceKeys data
     then fst (util.ParseResourceRequirements "100m" "100m" "128Mi" "128Mi")
     else noResources)
  /\ snd (util.ParseResourceRequirements "100m" "100m" "128Mi" "128Mi") = None
  /\ dom (Requests
            (fst (util.ParseResourceRequirements "100m" "100m" "128Mi" "128Mi")))
     = ({[ ResourceCPU; ResourceMemory ]} : gset string)
  /\ dom (Limits
            (fst (util.ParseResourceRequirements "100m" "100m" "128Mi" "128Mi")))
     = ({[ ResourceCPU; ResourceMemory ]} : gset string).
Proof.
  split; [|repeat split; vm_compute; reflexivity].
  rewrite initContainerFor_eq. cbn [Resources buildInitContainer].
  destruct (configFromData_resources data) as (-> & -> & -> & ->).
  unfold noResourceKeys.
  destruct (String.eqb (index data "cpuRequest") "");
    destruct (String.eqb (index data "cpuLimit") "");
    destruct (String.eqb (index data "memRequest") "");
    destruct (String.eqb (index data "memLimit") "");
    vm_compute; reflexivity.
Qed.

(** X16: the container mounts exactly the claim-backed volumes of the Pod:
    one mount per such volume, in order, under the volume's own name,
    writable, at the slash-prefixed claim name; and the mount paths are
    exactly the paths handed to the mover on its command line after the
    five fixed arguments. *)
Theorem injected_mounts_match_volumes (cfg : initcontainerConfig) (pod : Pod) :
  let c := initContainerFor cfg pod in
  VolumeMounts c
  = map (fun v => {| VolumeMount_Name := Volume_Name v;
                     MountPath := "/" +:+ claimOf v;
                     VolumeMount_ReadOnly := false |})
        (List.filter hasClaim (Volumes (Spec pod)))
  /\ Forall (fun m => exists v,
                 In v (Volumes (Spec pod))
                 /\ PersistentVolumeClaim v <> None
                 /\ VolumeMount_Name m = Volume_Name v)
       (VolumeMounts c)
  /\ drop 5 (Args c) = map MountPath (VolumeMounts c).
Proof.
  cbv zeta. rewrite initContainerFor_eq.
  cbn [VolumeMounts Args buildInitContainer].
  rewrite volumeBindings_filter, !map_map. cbn.
  split; [reflexivity|]. split; [|reflexivity].
  apply Forall_forall. intros m Hm. apply list_elem_of_In in Hm.
  apply in_map_iff in Hm as (v & <- & Hv).
  apply filter_In in Hv as [Hin Hc]. exists v. repeat split; auto.
  unfold hasClaim in Hc. by destruct (PersistentVolumeClaim v).
Qed.

(** ** ParseResourceRequirements, further *)

(** X17: a string that does not parse is reported by the first of the
    four arguments that fails, in the order cpu request, memory request,
    cpu limit, memory limit: the error wraps the parser's error and
    carries the raw string, and the maps are empty.  When all four parse,
    the only possible error is the request-above-limit one. *)
Theorem ParseResourceRequirements_parse_error (cr mr cl ml : string) :
  let r := util.ParseResourceRequirements cr mr cl ml in
  match snd (resource.ParseQuantity cr), snd (resource.ParseQuantity mr),
        snd (resource.ParseQuantity cl), snd (resource.ParseQuantity ml) with
  | Some e, _, _, _ =>
      r = (noResources,
           Some (Wrapf e (util.quoted "couldn't parse CPU request ")
                   [ArgString cr]))
  | None, Some e, _, _ =>
      r = (noResources,
           Some (Wrapf e (util.quoted "couldn't parse memory request ")
                   [ArgString mr]))
  | None, None, Some e, _ =>
      r = (noResources,
           Some (Wrapf e (util.quoted "couldn't parse CPU limit ")
                   [ArgString cl]))
  | None, None, None, Some e =>
      r = (noResources,
           Some (Wrapf e (util.quoted "couldn't parse memory limit ")
                   [ArgString ml]))
  | None, None, None, None =>
      snd r = None
      \/ exists format args, snd r = Some (WithStack (Errorf format args))
  end.
Proof.
  cbv zeta. unfold util.ParseResourceRequirements.
  destruct (resource.ParseQuantity cr) as [qcr [e|]]; cbn [snd];
    [reflexivity|].
  destruct (resource.ParseQuantity mr) as [qmr [e|]]; cbn [snd];
    [reflexivity|].
  destruct (resource.ParseQuantity cl) as [qcl [e|]]; cbn [snd];
    [reflexivity|].
  destruct (resource.ParseQuantity ml) as [qml [e|]]; cbn [snd];
    [reflexivity|].
  destruct (util.exceeds qcr qcl) as [qcr' [|]];
    [right; by do 2 eexists|].
  destruct (util.exceeds qmr qml) as [qmr' [|]];
    [right; by do 2 eexists|].
  by left.
Qed.

(** ** ParseSecurityContext, further *)

Lemma digitsValue_bounds (l : list ascii) (acc n : Z) :
  0 <= acc -> strconv.digitsValue acc l = Some n -> 0 <= n.
Proof.
  revert acc. induction l as [|c l IH]; intros acc Hacc; cbn.
  - by intros [= <-].
  - destruct (strconv.isDigit c) eqn:Hd; [|discriminate].
    apply IH. unfold strconv.isDigit, strconv.digitVal in *.
    apply andb_true_iff in Hd as [H1 H2].
    apply Z.leb_le in H1. lia.
Qed.

Lemma ParseInt_range (s : string) (v : Z) :
  strconv.ParseInt s = (v, None) -> - 2 ^ 63 <= v <= 2 ^ 63 - 1.
Proof.
  unfold strconv.ParseInt.
  destruct (list_ascii_of_string s) as [|c rest]; [discriminate|].
  assert (Hbody : forall neg body,
    match strconv.ParseUint body with
    | Some (un, _) =>
        let cutoff := 2 ^ 63 in
        if negb neg && (cutoff <=? un)
        then (cutoff - 1, Some (NumError "ParseInt" s true))
        else if neg && (cutoff <? un)
             then (- cutoff, Some (NumError "ParseInt" s true))
             else (if neg then - un else un, None)
    | None => (0, Some (NumError "ParseInt" s false))
    end = (v, None) -> - 2 ^ 63 <= v <= 2 ^ 63 - 1).
  { intros neg body. unfold strconv.ParseUint.
    destruct body as [|b body]; [discriminate|].
    destruct (strconv.digitsValue 0 (b :: body)) as [n|] eqn:Hn;
      [|discriminate].
    apply digitsValue_bounds in Hn; [|lia].
    assert (Hun : forall un : Z, 0 <= un ->
      (let cutoff := 2 ^ 63 in
       if negb neg && (cutoff <=? un)
       then (cutoff - 1, Some (NumError "ParseInt" s true))
       else if neg && (cutoff <? un)
            then (- cutoff, Some (NumError "ParseInt" s true))
            else (if neg then - un else un, None)) = (v, None) ->
      - 2 ^ 63 <= v <= 2 ^ 63 - 1).
    { intros un Hpos. cbv zeta.
      destruct neg; cbn [negb andb].
      - destruct (2 ^ 63 <? un) eqn:E; [discriminate|].
        apply Z.ltb_ge in E. intros [= <-]. lia.
      - destruct (2 ^ 63 <=? un) eqn:E; [discriminate|].
        apply Z.leb_gt in E. intros [= <-]. lia. }
    destruct (strconv.maxUint64 <? n); apply Hun;
      unfold strconv.maxUint64; lia. }
  destruct (Ascii.eqb c "+"); [apply Hbody|].
  destruct (Ascii.eqb c "-"); apply Hbody.
Qed.

(** X18: a user or group id that [ParseSecurityContext] sets is the value
    of the decimal string it was given and fits a signed 64-bit integer:
    a number outside that range is an error, not a wrapped value. *)
Theorem security_context_ids_in_range (u g a : string) (v : Z) :
  RunAsUser (fst (util.ParseSecurityContext u g a)) = Some v
  \/ RunAsGroup (fst (util.ParseSecurityContext u g a)) = Some v ->
  - 2 ^ 63 <= v <= 2 ^ 63 - 1
  /\ (strconv.ParseInt u = (v, None) \/ strconv.ParseInt g = (v, None)).
Proof.
  unfold util.ParseSecurityContext.
  destruct (String.eqb u "") eqn:Eu;
    destruct (strconv.ParseInt u) as [vu [eu|]] eqn:Pu;
    destruct (String.eqb g "") eqn:Eg;
    destruct (strconv.ParseInt g) as [vg [eg|]] eqn:Pg;
    destruct (String.eqb a "") eqn:Ea;
    destruct (strconv.ParseBool a) as [va [ea|]] eqn:Pa;
    cbn; intros [[=]|[=]]; subst;
    (split; [first [exact (ParseInt_range _ _ Pu)
                   | exact (ParseInt_range _ _ Pg)]
            | first [by left | by right]]).
Qed.

Lemma security_context_ids_in_range_witness :
  - 2 ^ 63 <= 1000 <= 2 ^ 63 - 1
  /\ (strconv.ParseInt "1000" = (1000, None)
      \/ strconv.ParseInt "" = (1000, None)).
Proof.
  exact (security_context_ids_in_range "1000" "" "" 1000
           (or_introl eq_refl)).
Defined.

(** [success_respects_limits] on the second call of the validation
    boundary. *)
Lemma success_respects_limits_witness :
  snd (resource.Cmp (fst (resource.ParseQuantity "100m"))
         (fst (resource.ParseQuantity "200m"))) <= 0.
Proof.
  exact (proj1 (success_respects_limits "100m" "100m" "200m" "200m"
                  _ _ _ _ eq_refl eq_refl eq_refl eq_refl eq_refl)
           eq_refl).
Defined.
